(** * PowerTag gateway: topology classification and entity discovery

    A shallow embedding of [custom_components/powertag_gateway/entity_base.py]
    and of the discovery loop of [custom_components/powertag_gateway/sensor.py].

    Python enumerations become inductive types, one module per enumeration so
    that members keep their qualified names ([PhaseSequence.ABC],
    [FeatureClass.A2], ...).  Code that can raise returns a [result]; the
    [DeviceInfo] dictionaries are finite maps keyed by strings; the discovery
    loop runs in a small state-and-exception monad that records every call of
    [modbus_address_of_node]. *)

From Stdlib Require Import ZArith.
From stdpp Require Import base decidable option list strings gmap.

Local Open Scope string_scope.
Local Open Scope Z_scope.
Local Open Scope list_scope.

(** ** Enumerations imported from [schneider_modbus] *)

Module Phase.
(** Modelled from the spec: the [Phase] enumeration of [schneider_modbus.py],
    a module that [entity_base.py] imports; the three conductors A, B, C
    are the members that [entity_base.py] names. *)
Inductive t := A | B | C.

#[global] Instance eq_dec : EqDecision t.
Proof. solve_decision. Defined.
End Phase.

Module LineVoltage.
(** Modelled from the spec: the [LineVoltage] enumeration of
    [schneider_modbus.py]: three line-to-neutral and three line-to-line
    pairs, as named in [entity_base.py]. *)
Inductive t := A_N | B_N | C_N | A_B | B_C | C_A.

#[global] Instance eq_dec : EqDecision t.
Proof. solve_decision. Defined.
End LineVoltage.

Module PhaseSequence.
(** Modelled from the spec: the [PhaseSequence] enumeration of
    [schneider_modbus.py]: a single phase alone, one of the six orderings of
    three phases, or the invalid marker. *)
Inductive t := A | B | C | ABC | ACB | BAC | BCA | CAB | CBA | INVALID.

#[global] Instance eq_dec : EqDecision t.
Proof. solve_decision. Defined.

(** Iteration order of the enumeration. *)
Definition members : list t := [A; B; C; ABC; ACB; BAC; BCA; CAB; CBA; INVALID].
End PhaseSequence.

Module ProductType.
(** Modelled from the spec: the [ProductType] enumeration of
    [schneider_modbus.py].  Its members are the product codes that
    [entity_base.py] refers to: the twenty-six metering tags spread over the
    feature classes and the four accessories listed by [is_powertag]. *)
Inductive t :=
| A9MEM1520 | A9MEM1521 | A9MEM1522 | A9MEM1540 | A9MEM1541 | A9MEM1542
| A9MEM1543
| A9MEM1560 | A9MEM1561 | A9MEM1562 | A9MEM1563 | A9MEM1564
| A9MEM1570 | A9MEM1571 | A9MEM1572 | A9MEM1573 | A9MEM1574
| A9MEM1580
| A9MEM1590 | A9MEM1591 | A9MEM1592 | A9MEM1593
| LV434020 | LV434021 | LV434022 | LV434023
| SMT10020 | A9XMWRD | A9XMC2D3 | A9XMC1D3.

#[global] Instance eq_dec : EqDecision t.
Proof. solve_decision. Defined.

Definition members : list t :=
  [ A9MEM1520; A9MEM1521; A9MEM1522; A9MEM1540; A9MEM1541; A9MEM1542;
    A9MEM1543;
    A9MEM1560; A9MEM1561; A9MEM1562; A9MEM1563; A9MEM1564;
    A9MEM1570; A9MEM1571; A9MEM1572; A9MEM1573; A9MEM1574;
    A9MEM1580;
    A9MEM1590; A9MEM1591; A9MEM1592; A9MEM1593;
    LV434020; LV434021; LV434022; LV434023;
    SMT10020; A9XMWRD; A9XMC2D3; A9XMC1D3 ].
End ProductType.

(** ** Exceptions *)

(** The Python exceptions that the embedded code can raise by itself. *)
Inductive exn := IndexError | KeyError | StopIteration.

Inductive result (A : Type) :=
| Ok (a : A)
| Raise (e : exn).
Arguments Ok {A} a.
Arguments Raise {A} e.

Definition result_bind {A B} (r : result A) (f : A → result B) : result B :=
  match r with
  | Ok a => f a
  | Raise e => Raise e
  end.

(** [l[0]] *)
Definition first {A} (l : list A) : result A :=
  match l with
  | [] => Raise IndexError
  | x :: _ => Ok x
  end.

(** [d[k]] for a dictionary literal, kept as its list of items. *)
Fixpoint getitem {K V} `{EqDecision K} (d : list (K * V)) (k : K) : result V :=
  match d with
  | [] => Raise KeyError
  | (k', v) :: d' => if decide (k' = k) then Ok v else getitem d' k
  end.

(** [x in l] *)
Definition contains {A} `{EqDecision A} (l : list A) (x : A) : bool :=
  bool_decide (x ∈ l).

(** ** entity_base.py: phases of a phase sequence *)

Definition phase_sequence_to_phases (phase_sequence : PhaseSequence.t)
  : result (list Phase.t) :=
  getitem
    [ (PhaseSequence.A, [Phase.A]);
      (PhaseSequence.B, [Phase.B]);
      (PhaseSequence.C, [Phase.C]);
      (PhaseSequence.ABC, [Phase.A; Phase.B; Phase.C]);
      (PhaseSequence.ACB, [Phase.A; Phase.C; Phase.B]);
      (PhaseSequence.BAC, [Phase.B; Phase.A; Phase.C]);
      (PhaseSequence.BCA, [Phase.B; Phase.C; Phase.A]);
      (PhaseSequence.CAB, [Phase.C; Phase.A; Phase.B]);
      (PhaseSequence.CBA, [Phase.C; Phase.B; Phase.A]);
      (PhaseSequence.INVALID, []) ]
    phase_sequence.

(** ** entity_base.py: feature classes *)

Module FeatureClass.
Inductive t := A1 | A2 | P1 | F1 | F2 | F3 | FL | MV | M1 | M2 | M3 | R1.

#[global] Instance eq_dec : EqDecision t.
Proof. solve_decision. Defined.

(** [for fc in FeatureClass]: the members in definition order.  The twelve
    value lists are pairwise different, so no member is an alias of
    another. *)
Definition members : list t := [A1; A2; P1; F1; F2; F3; FL; MV; M1; M2; M3; R1].

(** [fc.value] *)
Definition value (fc : t) : list ProductType.t :=
  match fc with
  | A1 => [ProductType.A9MEM1520; ProductType.A9MEM1521; ProductType.A9MEM1522;
           ProductType.A9MEM1541; ProductType.A9MEM1542]
  | A2 => [ProductType.A9MEM1540; ProductType.A9MEM1543]
  | P1 => [ProductType.A9MEM1561; ProductType.A9MEM1562; ProductType.A9MEM1563;
           ProductType.A9MEM1571; ProductType.A9MEM1572]
  | F1 => [ProductType.A9MEM1560; ProductType.A9MEM1570]
  | F2 => [ProductType.A9MEM1573]
  | F3 => [ProductType.A9MEM1564; ProductType.A9MEM1574]
  | FL => [ProductType.A9MEM1580]
  | MV => [ProductType.LV434020]
  | M1 => [ProductType.LV434021]
  | M2 => [ProductType.LV434022]
  | M3 => [ProductType.LV434023]
  | R1 => [ProductType.A9MEM1590; ProductType.A9MEM1591; ProductType.A9MEM1592;
           ProductType.A9MEM1593]
  end.
End FeatureClass.

Definition is_powertag (product_type : ProductType.t) : bool :=
  negb (contains [ProductType.SMT10020; ProductType.A9XMWRD;
                  ProductType.A9XMC2D3; ProductType.A9XMC1D3] product_type).

(** [[fc for fc in FeatureClass if product_type in fc.value]] *)
Definition feature_classes_of (product_type : ProductType.t) : list FeatureClass.t :=
  filter (λ fc, product_type ∈ FeatureClass.value fc) FeatureClass.members.

(** [[fc for fc in FeatureClass if product_type in fc.value][0]], the first
    statement of [has_neutral], [is_m] and [is_r]. *)
Definition feature_class_lookup (product_type : ProductType.t) : result FeatureClass.t :=
  first (feature_classes_of product_type).

Definition has_neutral (product_type : ProductType.t) : result bool :=
  result_bind (feature_class_lookup product_type) (λ feature_class,
  Ok (negb (contains [FeatureClass.A2; FeatureClass.F2; FeatureClass.M2] feature_class))).

Definition is_m (product_type : ProductType.t) : result bool :=
  result_bind (feature_class_lookup product_type) (λ feature_class,
  Ok (contains [FeatureClass.M1; FeatureClass.M2; FeatureClass.M3; FeatureClass.MV]
        feature_class)).

Definition is_r (product_type : ProductType.t) : result bool :=
  result_bind (feature_class_lookup product_type) (λ feature_class,
  Ok (contains [FeatureClass.FL; FeatureClass.R1] feature_class)).

(** ** entity_base.py: line voltages of a phase sequence *)

Definition phase_sequence_to_line_voltages
    (phase_sequence : PhaseSequence.t) (neutral : bool) : result (list LineVoltage.t) :=
  if decide (phase_sequence = PhaseSequence.INVALID) then Ok []
  else if contains [PhaseSequence.A; PhaseSequence.B; PhaseSequence.C] phase_sequence then
    if negb neutral then Ok []
    else getitem
           [ (PhaseSequence.A, [LineVoltage.A_N]);
             (PhaseSequence.B, [LineVoltage.B_N]);
             (PhaseSequence.C, [LineVoltage.C_N]) ]
           phase_sequence
  else
    Ok (if neutral then [LineVoltage.A_N; LineVoltage.B_N; LineVoltage.C_N]
        else [LineVoltage.A_B; LineVoltage.B_C; LineVoltage.C_A]).

(** ** The Modbus client *)

(** Modelled from the spec: the [SchneiderModbus] facade of
    [schneider_modbus.py], reduced to the accessors that [entity_base.py] and
    the discovery loop of [sensor.py] call.  Every accessor is one register
    read on the gateway; a read is a function of the register map, which is
    stable during set-up.  Identity fields are the decoded fixed-width
    strings, [tag_usage] is the name of the usage member that the tag
    reports, and [modbus_address_of_node] and [tag_radio_lqi_gateway] answer
    [None] when the gateway has no value. *)
Record SchneiderModbus := {
  serial_number : string;
  hardware_version : string;
  firmware_version : string;
  manufacturer : string;
  product_code : string;
  name : string;
  modbus_address_of_node : Z → option Z;
  tag_radio_lqi_gateway : Z → option Z;
  tag_serial_number : Z → string;
  tag_hardware_revision : Z → string;
  tag_firmware_revision : Z → string;
  tag_vendor_name : Z → string;
  tag_product_model : Z → string;
  tag_name : Z → string;
  tag_usage : Z → string;
  tag_phase_sequence : Z → PhaseSequence.t;
  tag_product_type : Z → ProductType.t
}.

(** ** Device descriptions *)

(** The values stored in a [DeviceInfo] dictionary: strings, the
    [(domain, serial)] pair of [via_device], and the set of such pairs of
    [identifiers]. *)
Inductive value :=
| VStr (s : string)
| VTuple (t : string * string)
| VSet (ids : gset (string * string)).

(** [DeviceInfo] is a typed dictionary. *)
Abbreviation DeviceInfo := (gmap string value).

(** A dictionary display or keyword call: items are stored from left to
    right, a later item replacing an earlier one with the same key. *)
Definition dict (items : list (string * value)) : DeviceInfo :=
  foldl (λ d item, <[item.1 := item.2]> d) ∅ items.

(** [next(iter(s))] *)
Definition next_iter (v : value) : result (string * string) :=
  match v with
  | VSet ids =>
      match elements ids with
      | [] => Raise StopIteration
      | x :: _ => Ok x
      end
  | _ => Raise StopIteration
  end.

(** [d[key]] on a [DeviceInfo]. *)
Definition device_getitem (d : DeviceInfo) (key : string) : result value :=
  match d !! key with
  | Some v => Ok v
  | None => Raise KeyError
  end.

(** ** Entities *)

(** An entity is kept as its class together with the arguments of its
    constructor (the client, shared by all, is left out); the constructors
    only read identity fields to build display names. *)
Inductive Entity :=
| GatewayTime (tag_device : DeviceInfo)
| PowerTagApparentPower (modbus_index : Z) (tag_device : DeviceInfo)
| PowerTagActivePower (modbus_index : Z) (tag_device : DeviceInfo)
| PowerTagDemandActivePower (modbus_index : Z) (tag_device : DeviceInfo)
| PowerTagTotalEnergy (modbus_index : Z) (tag_device : DeviceInfo)
| PowerTagPartialEnergy (modbus_index : Z) (tag_device : DeviceInfo)
| PowerTagPowerFactor (modbus_index : Z) (tag_device : DeviceInfo)
| PowerTagRssiTag (modbus_index : Z) (tag_device : DeviceInfo)
| PowerTagRssiGateway (modbus_index : Z) (tag_device : DeviceInfo)
| PowerTagLqiTag (modbus_index : Z) (tag_device : DeviceInfo)
| PowerTagLqiGateway (modbus_index : Z) (tag_device : DeviceInfo)
| PowerTagPerTag (modbus_index : Z) (tag_device : DeviceInfo)
| PowerTagPerGateway (modbus_index : Z) (tag_device : DeviceInfo)
| PowerTagCurrent (modbus_index : Z) (tag_device : DeviceInfo) (phase : Phase.t)
| PowerTagActivePowerPerPhase (modbus_index : Z) (tag_device : DeviceInfo) (phase : Phase.t)
| PowerTagVoltage (modbus_index : Z) (tag_device : DeviceInfo) (line : LineVoltage.t).

(** The tag slot an entity polls; the gateway clock has none. *)
Definition entity_modbus_index (e : Entity) : option Z :=
  match e with
  | GatewayTime _ => None
  | PowerTagApparentPower i _ | PowerTagActivePower i _
  | PowerTagDemandActivePower i _ | PowerTagTotalEnergy i _
  | PowerTagPartialEnergy i _ | PowerTagPowerFactor i _
  | PowerTagRssiTag i _ | PowerTagRssiGateway i _
  | PowerTagLqiTag i _ | PowerTagLqiGateway i _
  | PowerTagPerTag i _ | PowerTagPerGateway i _
  | PowerTagCurrent i _ _ | PowerTagActivePowerPerPhase i _ _
  | PowerTagVoltage i _ _ => Some i
  end.



(** ** The set-up monad: entity list, probe log, exceptions *)

Record SetupState := {
  probed : list Z;          (* arguments of [modbus_address_of_node], oldest first *)
  entities : list Entity    (* the local list [entities] *)
}.

Definition Setup (A : Type) : Type := SetupState → SetupState * result A.

Definition ret {A} (a : A) : Setup A := λ s, (s, Ok a).

Definition bind {A B} (m : Setup A) (k : A → Setup B) : Setup B :=
  λ s, match m s with
       | (s', Ok a) => k a s'
       | (s', Raise e) => (s', Raise e)
       end.

(** A pure computation that may raise. *)
Definition lift {A} (r : result A) : Setup A := λ s, (s, r).

Declare Scope setup_scope.
Delimit Scope setup_scope with setup.
Notation "x <- m ;; k" := (bind m (λ x, k))
  (at level 100, m at next level, k at level 200, right associativity) : setup_scope.
Notation "m ;; k" := (bind m (λ _, k))
  (at level 100, k at level 200, right associativity) : setup_scope.

(** [client.modbus_address_of_node(i)], logged. *)
Definition probe (client : SchneiderModbus) (i : Z) : Setup (option Z) :=
  λ s, ({| probed := probed s ++ [i]; entities := entities s |},
        Ok (modbus_address_of_node client i)).

(** [entities.append(e)] *)
Definition append (e : Entity) : Setup unit :=
  λ s, ({| probed := probed s; entities := entities s ++ [e] |}, Ok tt).

(** [entities.extend(es)] *)
Definition extend (es : list Entity) : Setup unit :=
  λ s, ({| probed := probed s; entities := entities s ++ es |}, Ok tt).

(** [for x in l: body(x)] without [break]. *)
Fixpoint for_each {A} (l : list A) (body : A → Setup unit) : Setup unit :=
  match l with
  | [] => ret tt
  | x :: l' => (body x ;; for_each l' body)%setup
  end.

(** ** entity_base.py: device descriptions; sensor.py: the discovery loop *)

Section Setup.

(** The two identifier domains of [const.py]. *)
Variables GATEWAY_DOMAIN TAG_DOMAIN : string.

Definition gateway_device_info (client : SchneiderModbus) (presentation_url : string)
  : DeviceInfo :=
  dict [ ("configuration_url", VStr presentation_url);
         ("identifiers", VSet {[ (GATEWAY_DOMAIN, serial_number client) ]});
         ("hw_version", VStr (hardware_version client));
         ("sw_version", VStr (firmware_version client));
         ("manufacturer", VStr (manufacturer client));
         ("model", VStr (product_code client));
         ("name", VStr (name client));
         ("serial_number", VStr (serial_number client)) ].

(** The branch of [tag_device_info] taken at debug verbosity only reads
    further registers and writes a log line; it leaves [kwargs] alone and is
    not part of the embedding. *)
Definition tag_device_info (client : SchneiderModbus) (modbus_index : Z)
    (presentation_url : string) (gateway_identification : string * string)
  : DeviceInfo :=
  let is_unreachable := bool_decide (tag_radio_lqi_gateway client modbus_index = None) in
  let serial_number := tag_serial_number client modbus_index in
  let kwargs :=
    dict [ ("configuration_url", VStr presentation_url);
           ("via_device", VTuple gateway_identification);
           ("identifiers", VSet {[ (TAG_DOMAIN, serial_number) ]});
           ("serial_number", VStr serial_number);
           ("hw_version", VStr (tag_hardware_revision client modbus_index));
           ("sw_version", VStr (tag_firmware_revision client modbus_index));
           ("manufacturer", VStr (tag_vendor_name client modbus_index));
           ("model", VStr (tag_product_model client modbus_index));
           ("name", VStr (tag_name client modbus_index)) ] in
  let kwargs :=
    if negb is_unreachable
    then <["suggested_area" := VStr (tag_usage client modbus_index)]> kwargs
    else kwargs in
  kwargs.

(** The body of the [for i in range(1, 100)] loop for a position that holds
    a tag, from [tag_device = ...] to the end of the voltage loop. *)
Definition setup_tag (client : SchneiderModbus) (presentation_url : string)
    (gateway_device : DeviceInfo) (modbus_address : Z) : Setup unit :=
  (identifiers <- lift (device_getitem gateway_device "identifiers") ;;
   gateway_identification <- lift (next_iter identifiers) ;;
   let tag_device :=
     tag_device_info client modbus_address presentation_url gateway_identification in
   extend [ PowerTagApparentPower modbus_address tag_device;
            PowerTagActivePower modbus_address tag_device;
            PowerTagDemandActivePower modbus_address tag_device;
            PowerTagTotalEnergy modbus_address tag_device;
            PowerTagPartialEnergy modbus_address tag_device;
            PowerTagPowerFactor modbus_address tag_device;
            PowerTagRssiTag modbus_address tag_device;
            PowerTagRssiGateway modbus_address tag_device;
            PowerTagLqiTag modbus_address tag_device;
            PowerTagLqiGateway modbus_address tag_device;
            PowerTagPerTag modbus_address tag_device;
            PowerTagPerGateway modbus_address tag_device ] ;;
   let phase_sequence := tag_phase_sequence client modbus_address in
   neutral <- lift (has_neutral (tag_product_type client modbus_address)) ;;
   phases <- lift (phase_sequence_to_phases phase_sequence) ;;
   for_each phases (λ phase,
     append (PowerTagCurrent modbus_address tag_device phase) ;;
     if neutral : bool
     then append (PowerTagActivePowerPerPhase modbus_address tag_device phase)
     else ret tt) ;;
   line_voltages <- lift (phase_sequence_to_line_voltages phase_sequence neutral) ;;
   for_each line_voltages (λ line_voltage,
     append (PowerTagVoltage modbus_address tag_device line_voltage)))%setup.

(** [for i in range(...)] with its [break]: the positions still to visit are
    the argument. *)
Fixpoint discovery_loop (client : SchneiderModbus) (presentation_url : string)
    (gateway_device : DeviceInfo) (range : list Z) : Setup unit :=
  match range with
  | [] => ret tt
  | i :: range' =>
      (modbus_address <- probe client i ;;
       match modbus_address with
       | None => ret tt
       | Some modbus_address =>
           setup_tag client presentation_url gateway_device modbus_address ;;
           discovery_loop client presentation_url gateway_device range'
       end)%setup
  end.

(** The outcome of [async_setup_entry]: the positions probed, in order, and
    either the list handed to [async_add_entities] or the exception that
    ended set-up before anything was registered.  The client and the
    presentation URL, which the function first takes out of the platform's
    configuration data, are its arguments here. *)
Record SetupOutcome := {
  queried : list Z;
  registered : result (list Entity)
}.

Definition async_setup_entry (client : SchneiderModbus) (presentation_url : string)
  : SetupOutcome :=
  let body :=
    (let gateway_device := gateway_device_info client presentation_url in
     append (GatewayTime gateway_device) ;;
     discovery_loop client presentation_url gateway_device (seqZ 1 99))%setup in
  match body {| probed := []; entities := [] |} with
  | (s, Ok _) => {| queried := probed s; registered := Ok (entities s) |}
  | (s, Raise e) => {| queried := probed s; registered := Raise e |}
  end.

End Setup.

(** * Vocabulary of the statements *)

(** The product types that [is_powertag] rejects. *)
Definition accessories : list ProductType.t :=
  [ProductType.SMT10020; ProductType.A9XMWRD; ProductType.A9XMC2D3; ProductType.A9XMC1D3].

Definition single_phase_sequences : list PhaseSequence.t :=
  [PhaseSequence.A; PhaseSequence.B; PhaseSequence.C].

Definition three_phase_sequences : list PhaseSequence.t :=
  [PhaseSequence.ABC; PhaseSequence.ACB; PhaseSequence.BAC;
   PhaseSequence.BCA; PhaseSequence.CAB; PhaseSequence.CBA].

(** The line-to-neutral voltage of a conductor. *)
Definition line_to_neutral (phase : Phase.t) : LineVoltage.t :=
  match phase with
  | Phase.A => LineVoltage.A_N
  | Phase.B => LineVoltage.B_N
  | Phase.C => LineVoltage.C_N
  end.

(** Number of conductors a phase sequence names. *)
Definition phase_count (phase_sequence : PhaseSequence.t) : nat :=
  match phase_sequence with
  | PhaseSequence.INVALID => 0%nat
  | PhaseSequence.A | PhaseSequence.B | PhaseSequence.C => 1%nat
  | _ => 3%nat
  end.

(** The addresses of the tags that a probe of the positions [range] meets
    before the first position without a device. *)
Fixpoint attached (client : SchneiderModbus) (range : list Z) : list Z :=
  match range with
  | [] => []
  | i :: range' =>
      match modbus_address_of_node client i with
      | None => []
      | Some modbus_address => modbus_address :: attached client range'
      end
  end.

(** Total readings of the three classification results, for stating what a
    completed set-up registered. *)
Definition phases_of (phase_sequence : PhaseSequence.t) : list Phase.t :=
  match phase_sequence_to_phases phase_sequence with
  | Ok phases => phases
  | Raise _ => []
  end.

Definition neutral_of (product_type : ProductType.t) : bool :=
  match has_neutral product_type with
  | Ok neutral => neutral
  | Raise _ => false
  end.

Definition lines_of (phase_sequence : PhaseSequence.t) (neutral : bool)
  : list LineVoltage.t :=
  match phase_sequence_to_line_voltages phase_sequence neutral with
  | Ok lines => lines
  | Raise _ => []
  end.

(** A computation that never calls [modbus_address_of_node]. *)
Definition silent {A} (m : Setup A) : Prop := ∀ s, probed (m s).1 = probed s.

(** A computation that returns after adding exactly [es] to the entity list. *)
Definition appends (m : Setup unit) (es : list Entity) : Prop :=
  ∀ s, m s = ({| probed := probed s; entities := entities s ++ es |}, Ok tt).

(** The entities of one phase of a tag. *)
Definition per_phase_entities (modbus_address : Z) (tag_device : DeviceInfo)
    (neutral : bool) (phase : Phase.t) : list Entity :=
  PowerTagCurrent modbus_address tag_device phase ::
  (if neutral then [PowerTagActivePowerPerPhase modbus_address tag_device phase] else []).

Section Expected.

Variables GATEWAY_DOMAIN TAG_DOMAIN : string.

(** The entities of the tag at [modbus_address], in registration order: the
    twelve per-tag sensors, the per-phase sensors, the voltage sensors. *)
Definition tag_entities (client : SchneiderModbus) (presentation_url : string)
    (modbus_address : Z) : list Entity :=
  let tag_device :=
    tag_device_info TAG_DOMAIN client modbus_address presentation_url
      (GATEWAY_DOMAIN, serial_number client) in
  let phase_sequence := tag_phase_sequence client modbus_address in
  let neutral := neutral_of (tag_product_type client modbus_address) in
  [ PowerTagApparentPower modbus_address tag_device;
    PowerTagActivePower modbus_address tag_device;
    PowerTagDemandActivePower modbus_address tag_device;
    PowerTagTotalEnergy modbus_address tag_device;
    PowerTagPartialEnergy modbus_address tag_device;
    PowerTagPowerFactor modbus_address tag_device;
    PowerTagRssiTag modbus_address tag_device;
    PowerTagRssiGateway modbus_address tag_device;
    PowerTagLqiTag modbus_address tag_device;
    PowerTagLqiGateway modbus_address tag_device;
    PowerTagPerTag modbus_address tag_device;
    PowerTagPerGateway modbus_address tag_device ]
  ++ flat_map (per_phase_entities modbus_address tag_device neutral)
       (phases_of phase_sequence)
  ++ map (PowerTagVoltage modbus_address tag_device) (lines_of phase_sequence neutral).

End Expected.

(** ** Sample gateways *)

(** A gateway named [Link] whose node table is [nodes], all tags reachable
    and installed in the kitchen. *)
Definition sample_gateway (nodes : Z → option Z)
    (product_types : Z → ProductType.t) (phase_sequences : Z → PhaseSequence.t)
    (lqi : Z → option Z) : SchneiderModbus :=
  {| serial_number := "SN-0001";
     hardware_version := "001.000.000";
     firmware_version := "001.004.002";
     manufacturer := "Schneider Electric";
     product_code := "A9XMWD20";
     name := "Link";
     modbus_address_of_node := nodes;
     tag_radio_lqi_gateway := lqi;
     tag_serial_number := λ _, "SN-TAG";
     tag_hardware_revision := λ _, "001";
     tag_firmware_revision := λ _, "002";
     tag_vendor_name := λ _, "Schneider Electric";
     tag_product_model := λ _, "PowerTag";
     tag_name := λ _, "Tag";
     tag_usage := λ _, "kitchen";
     tag_phase_sequence := phase_sequences;
     tag_product_type := product_types |}.

(** Two metering tags, at addresses 101 and 102: a three-phase tag without
    neutral wired C-B-A and a single-phase tag with neutral on phase B. *)
Definition two_tag_gateway : SchneiderModbus :=
  sample_gateway
    (λ i, if decide (i < 3) then Some (100 + i) else None)
    (λ a, if decide (a = 101) then ProductType.A9MEM1540 else ProductType.A9MEM1520)
    (λ a, if decide (a = 101) then PhaseSequence.CBA else PhaseSequence.B)
    (λ _, Some 200).

(** A metering tag at position 1 and a heat sensor at position 2; position 3
    is the first without device. *)
Definition heat_tag_gateway : SchneiderModbus :=
  sample_gateway
    (λ i, if decide (i < 3) then Some (100 + i) else None)
    (λ a, if decide (a = 102) then ProductType.SMT10020 else ProductType.A9MEM1520)
    (λ _, PhaseSequence.A)
    (λ _, Some 200).

(** A node table that reports a metering tag at every position. *)
Definition crowded_gateway : SchneiderModbus :=
  sample_gateway (λ i, Some i) (λ _, ProductType.A9MEM1520)
    (λ _, PhaseSequence.ABC) (λ _, Some 200).

(** * Entity attributes *)

(** ** entity_base.py, sensor.py: what the entity constructors set *)

(** [phase.name] *)
Definition Phase_name (phase : Phase.t) : string :=
  match phase with
  | Phase.A => "A"
  | Phase.B => "B"
  | Phase.C => "C"
  end.

(** [line.name] *)
Definition LineVoltage_name (line : LineVoltage.t) : string :=
  match line with
  | LineVoltage.A_N => "A_N"
  | LineVoltage.B_N => "B_N"
  | LineVoltage.C_N => "C_N"
  | LineVoltage.A_B => "A_B"
  | LineVoltage.B_C => "B_C"
  | LineVoltage.C_A => "C_A"
  end.

(** [self._attr_device_info]: the [tag_device] argument of the constructor. *)
Definition attr_device_info (e : Entity) : DeviceInfo :=
  match e with
  | GatewayTime d
  | PowerTagApparentPower _ d | PowerTagActivePower _ d
  | PowerTagDemandActivePower _ d | PowerTagTotalEnergy _ d
  | PowerTagPartialEnergy _ d | PowerTagPowerFactor _ d
  | PowerTagRssiTag _ d | PowerTagRssiGateway _ d
  | PowerTagLqiTag _ d | PowerTagLqiGateway _ d
  | PowerTagPerTag _ d | PowerTagPerGateway _ d
  | PowerTagCurrent _ d _ | PowerTagActivePowerPerPhase _ d _
  | PowerTagVoltage _ d _ => d
  end.

Definition is_voltage (e : Entity) : bool :=
  match e with PowerTagVoltage _ _ _ => true | _ => false end.

Section EntityBase.

Variable TAG_DOMAIN : string.

(** [f"{phase}"]: the text that formatting a member of [Phase] gives, which
    is for [schneider_modbus.py] to decide. *)
Variable phase_format : Phase.t → string.

(** The name that each entity class hands to the constructor of its base
    class. *)
Definition entity_name (e : Entity) : string :=
  match e with
  | GatewayTime _ => "datetime"
  | PowerTagApparentPower _ _ => "apparent power"
  | PowerTagCurrent _ _ phase => "current " +:+ Phase_name phase
  | PowerTagVoltage _ _ line => "voltage " +:+ LineVoltage_name line
  | PowerTagActivePower _ _ => "active power"
  | PowerTagActivePowerPerPhase _ _ phase => "active power phase " +:+ phase_format phase
  | PowerTagDemandActivePower _ _ => "demand active power"
  | PowerTagTotalEnergy _ _ => "total energy"
  | PowerTagPartialEnergy _ _ => "partial energy"
  | PowerTagPowerFactor _ _ => "power factor"
  | PowerTagRssiTag _ _ => "RSSI in tag"
  | PowerTagRssiGateway _ _ => "RSSI in gateway"
  | PowerTagLqiTag _ _ => "LQI in tag"
  | PowerTagLqiGateway _ _ => "LQI in gateway"
  | PowerTagPerTag _ _ => "packet error rate in tag"
  | PowerTagPerGateway _ _ => "packet error rate in gateway"
  end.

(** [GatewayEntity.__init__]: [self._attr_unique_id] *)
Definition GatewayEntity_unique_id (client : SchneiderModbus) (sensor_name : string)
  : string :=
  let serial := serial_number client in
  TAG_DOMAIN +:+ serial +:+ sensor_name.

(** [PowerTagEntity.__init__]: [self._attr_unique_id] *)
Definition PowerTagEntity_unique_id (client : SchneiderModbus) (modbus_index : Z)
    (entity_name : string) : string :=
  let serial := tag_serial_number client modbus_index in
  TAG_DOMAIN +:+ serial +:+ entity_name.

(** The unique id of an entity: [GatewayTime] derives from [GatewayEntity],
    every other class from [PowerTagEntity]. *)
Definition attr_unique_id (client : SchneiderModbus) (e : Entity) : string :=
  match entity_modbus_index e with
  | None => GatewayEntity_unique_id client (entity_name e)
  | Some modbus_index => PowerTagEntity_unique_id client modbus_index (entity_name e)
  end.

End EntityBase.

(** ** sensor.py: class attributes *)

(** The members of Home Assistant's [SensorDeviceClass], [SensorStateClass]
    and [EntityCategory] that the entity classes use. *)
Inductive SensorDeviceClass :=
| APPARENT_POWER | CURRENT | VOLTAGE | POWER | ENERGY | POWER_FACTOR | SIGNAL_STRENGTH.

Inductive SensorStateClass := MEASUREMENT | TOTAL.

Inductive EntityCategory := DIAGNOSTIC.

Definition attr_device_class (e : Entity) : option SensorDeviceClass :=
  match e with
  | GatewayTime _ => None
  | PowerTagApparentPower _ _ => Some APPARENT_POWER
  | PowerTagCurrent _ _ _ => Some CURRENT
  | PowerTagVoltage _ _ _ => Some VOLTAGE
  | PowerTagActivePower _ _ => Some POWER
  | PowerTagActivePowerPerPhase _ _ _ => Some POWER
  | PowerTagDemandActivePower _ _ => Some POWER
  | PowerTagTotalEnergy _ _ => Some ENERGY
  | PowerTagPartialEnergy _ _ => Some ENERGY
  | PowerTagPowerFactor _ _ => Some POWER_FACTOR
  | PowerTagRssiTag _ _ => Some SIGNAL_STRENGTH
  | PowerTagRssiGateway _ _ => Some SIGNAL_STRENGTH
  | PowerTagLqiTag _ _ => None
  | PowerTagLqiGateway _ _ => None
  | PowerTagPerTag _ _ => None
  | PowerTagPerGateway _ _ => None
  end.

Definition attr_native_unit_of_measurement (e : Entity) : option string :=
  match e with
  | GatewayTime _ => None
  | PowerTagApparentPower _ _ => Some "VA"
  | PowerTagCurrent _ _ _ => Some "A"
  | PowerTagVoltage _ _ _ => Some "V"
  | PowerTagActivePower _ _ => Some "W"
  | PowerTagActivePowerPerPhase _ _ _ => Some "W"
  | PowerTagDemandActivePower _ _ => Some "W"
  | PowerTagTotalEnergy _ _ => Some "Wh"
  | PowerTagPartialEnergy _ _ => Some "Wh"
  | PowerTagPowerFactor _ _ => Some "%"
  | PowerTagRssiTag _ _ => Some "dBm"
  | PowerTagRssiGateway _ _ => Some "dBm"
  | PowerTagLqiTag _ _ => None
  | PowerTagLqiGateway _ _ => None
  | PowerTagPerTag _ _ => None
  | PowerTagPerGateway _ _ => None
  end.

Definition attr_state_class (e : Entity) : option SensorStateClass :=
  match e with
  | GatewayTime _ => None
  | PowerTagTotalEnergy _ _ => Some TOTAL
  | PowerTagPartialEnergy _ _ => Some TOTAL
  | _ => Some MEASUREMENT
  end.

Definition attr_entity_category (e : Entity) : option EntityCategory :=
  match e with
  | GatewayTime _ => Some DIAGNOSTIC
  | PowerTagRssiTag _ _ | PowerTagRssiGateway _ _
  | PowerTagLqiTag _ _ | PowerTagLqiGateway _ _
  | PowerTagPerTag _ _ | PowerTagPerGateway _ _ => Some DIAGNOSTIC
  | _ => None
  end.

(** ** Vocabulary *)

(** Line-to-neutral and line-to-line voltages. *)
Definition to_neutral (line : LineVoltage.t) : bool :=
  match line with
  | LineVoltage.A_N | LineVoltage.B_N | LineVoltage.C_N => true
  | _ => false
  end.

(** The serial number that the unique id of an entity embeds. *)
Definition owner_serial (client : SchneiderModbus) (e : Entity) : string :=
  match entity_modbus_index e with
  | None => serial_number client
  | Some modbus_index => tag_serial_number client modbus_index
  end.

(** The client [client] in front of another node table. *)
Definition with_node_table (client : SchneiderModbus) (nodes : Z → option Z)
  : SchneiderModbus :=
  {| serial_number := serial_number client;
     hardware_version := hardware_version client;
     firmware_version := firmware_version client;
     manufacturer := manufacturer client;
     product_code := product_code client;
     name := name client;
     modbus_address_of_node := nodes;
     tag_radio_lqi_gateway := tag_radio_lqi_gateway client;
     tag_serial_number := tag_serial_number client;
     tag_hardware_revision := tag_hardware_revision client;
     tag_firmware_revision := tag_firmware_revision client;
     tag_vendor_name := tag_vendor_name client;
     tag_product_model := tag_product_model client;
     tag_name := tag_name client;
     tag_usage := tag_usage client;
     tag_phase_sequence := tag_phase_sequence client;
     tag_product_type := tag_product_type client |}.

(** How many entities set-up creates for a tag, by phase sequence and
    neutral. *)
Definition tag_entity_count (phase_sequence : PhaseSequence.t) (neutral : bool) : nat :=
  (12 + phase_count phase_sequence * (if neutral then 2 else 1)
   + (if neutral then phase_count phase_sequence
      else match phase_count phase_sequence with 3 => 3 | _ => 0 end))%nat.

(** Three devices with serial numbers of their own: two metering tags at
    addresses 101 and 102 under a gateway. *)
Definition serial_gateway : SchneiderModbus :=
  {| serial_number := "SN-0001";
     hardware_version := "001.000.000";
     firmware_version := "001.004.002";
     manufacturer := "Schneider Electric";
     product_code := "A9XMWD20";
     name := "Link";
     modbus_address_of_node := λ i, if decide (i < 3) then Some (100 + i) else None;
     tag_radio_lqi_gateway := λ _, Some 200;
     tag_serial_number := λ a, if decide (a = 101) then "SN-0101" else "SN-0102";
     tag_hardware_revision := λ _, "001";
     tag_firmware_revision := λ _, "002";
     tag_vendor_name := λ _, "Schneider Electric";
     tag_product_model := λ _, "PowerTag";
     tag_name := λ a, if decide (a = 101) then "Oven" else "Lights";
     tag_usage := λ _, "kitchen";
     tag_phase_sequence := λ a, if decide (a = 101) then PhaseSequence.BCA else PhaseSequence.C;
     tag_product_type :=
       λ a, if decide (a = 101) then ProductType.A9MEM1573 else ProductType.A9MEM1561 |}.

(** [str] of a member of a plain enumeration: class name, dot, member name. *)
Definition Phase_str (phase : Phase.t) : string := "Phase." +:+ Phase_name phase.

(** * Properties *)

(** ** Enumerations are covered by their member lists *)

Lemma PhaseSequence_members_complete (phase_sequence : PhaseSequence.t) :
  phase_sequence ∈ single_phase_sequences ++ three_phase_sequences ++ [PhaseSequence.INVALID].
Proof. destruct phase_sequence; compute_done. Qed.

Lemma ProductType_members_complete (product_type : ProductType.t) :
  product_type ∈ ProductType.members.
Proof. destruct product_type; compute_done. Qed.

Lemma FeatureClass_members_complete (fc : FeatureClass.t) : fc ∈ FeatureClass.members.
Proof. destruct fc; compute_done. Qed.

(** ** Feature-class lookup *)

Example lookup_A9MEM1573 : feature_class_lookup ProductType.A9MEM1573 = Ok FeatureClass.F2.
Proof. vm_compute. reflexivity. Qed.

Example lookup_LV434020 : feature_classes_of ProductType.LV434020 = [FeatureClass.MV].
Proof. vm_compute. reflexivity. Qed.

(** C1, as stated, fails: the heat sensor [SMT10020] is a member of
    [ProductType] but of no feature class, so the comprehension is empty and
    taking its element [0] raises [IndexError]. *)
Lemma feature_class_lookup_accessory_fails :
  feature_classes_of ProductType.SMT10020 = [] ∧
  feature_class_lookup ProductType.SMT10020 = Raise IndexError ∧
  ¬ (∃ fc, feature_class_lookup ProductType.SMT10020 = Ok fc).
Proof.
  split; [vm_compute; reflexivity |].
  split; [vm_compute; reflexivity |].
  intros [fc Hfc]. vm_compute in Hfc. discriminate Hfc.
Qed.

(** C1, amended: for every product type that [is_powertag] accepts, the
    comprehension over [FeatureClass] holds exactly one class, the lookup
    returns it, and the product type is listed in that class; for the four
    accessories that [is_powertag] rejects the comprehension is empty and the
    lookup raises [IndexError]. *)
Theorem feature_class_lookup_powertag (product_type : ProductType.t) :
  if is_powertag product_type
  then ∃ fc, feature_classes_of product_type = [fc] ∧
             feature_class_lookup product_type = Ok fc ∧
             product_type ∈ FeatureClass.value fc
  else product_type ∈ accessories ∧
       feature_classes_of product_type = [] ∧
       feature_class_lookup product_type = Raise IndexError.
Proof.
  destruct (is_powertag product_type) eqn:E; destruct product_type;
    try (vm_compute in E; discriminate E); clear E.
  all: try (eexists; split; [vm_compute; reflexivity |];
            split; [vm_compute; reflexivity | compute_done]).
  all: split; [compute_done | split; vm_compute; reflexivity].
Qed.

(** ** Phases and line voltages *)

(** C2: [phase_sequence_to_phases] never raises; a single-phase sequence
    gives its one phase, each three-phase ordering XYZ gives [X; Y; Z] in that
    order, and [INVALID] gives the empty list. *)
Theorem phase_sequence_to_phases_table :
  (∀ phase_sequence, ∃ phases, phase_sequence_to_phases phase_sequence = Ok phases) ∧
  phase_sequence_to_phases PhaseSequence.A = Ok [Phase.A] ∧
  phase_sequence_to_phases PhaseSequence.B = Ok [Phase.B] ∧
  phase_sequence_to_phases PhaseSequence.C = Ok [Phase.C] ∧
  phase_sequence_to_phases PhaseSequence.ABC = Ok [Phase.A; Phase.B; Phase.C] ∧
  phase_sequence_to_phases PhaseSequence.ACB = Ok [Phase.A; Phase.C; Phase.B] ∧
  phase_sequence_to_phases PhaseSequence.BAC = Ok [Phase.B; Phase.A; Phase.C] ∧
  phase_sequence_to_phases PhaseSequence.BCA = Ok [Phase.B; Phase.C; Phase.A] ∧
  phase_sequence_to_phases PhaseSequence.CAB = Ok [Phase.C; Phase.A; Phase.B] ∧
  phase_sequence_to_phases PhaseSequence.CBA = Ok [Phase.C; Phase.B; Phase.A] ∧
  phase_sequence_to_phases PhaseSequence.INVALID = Ok [].
Proof.
  split.
  - intros []; eexists; vm_compute; reflexivity.
  - repeat split; vm_compute; reflexivity.
Qed.

(** C3: [phase_sequence_to_line_voltages] never raises.  [INVALID] gives no
    voltage whatever the neutral flag; a single phase gives its own
    line-to-neutral voltage with neutral and nothing without; every
    three-phase ordering gives the three line-to-neutral voltages with
    neutral and the three line-to-line voltages without. *)
Theorem phase_sequence_to_line_voltages_cases :
  (∀ neutral, phase_sequence_to_line_voltages PhaseSequence.INVALID neutral = Ok []) ∧
  phase_sequence_to_line_voltages PhaseSequence.A true = Ok [LineVoltage.A_N] ∧
  phase_sequence_to_line_voltages PhaseSequence.B true = Ok [LineVoltage.B_N] ∧
  phase_sequence_to_line_voltages PhaseSequence.C true = Ok [LineVoltage.C_N] ∧
  Forall (λ phase_sequence,
            phase_sequence_to_line_voltages phase_sequence false = Ok [])
         single_phase_sequences ∧
  Forall (λ phase_sequence,
            phase_sequence_to_line_voltages phase_sequence true
              = Ok [LineVoltage.A_N; LineVoltage.B_N; LineVoltage.C_N] ∧
            phase_sequence_to_line_voltages phase_sequence false
              = Ok [LineVoltage.A_B; LineVoltage.B_C; LineVoltage.C_A])
         three_phase_sequences ∧
  (∀ phase_sequence neutral,
     ∃ lines, phase_sequence_to_line_voltages phase_sequence neutral = Ok lines).
Proof.
  split; [intros []; vm_compute; reflexivity |].
  do 3 (split; [vm_compute; reflexivity |]).
  split; [repeat constructor |].
  split; [repeat constructor |].
  intros [] []; eexists; vm_compute; reflexivity.
Qed.

(** C9: with neutral present, the line voltages of a phase sequence are as
    many as its phases: none for [INVALID], one for a single phase, three for
    a three-phase ordering; they are the line-to-neutral voltages of those
    phases, one each. *)
Theorem line_voltages_match_phases (phase_sequence : PhaseSequence.t) :
  ∃ phases lines,
    phase_sequence_to_phases phase_sequence = Ok phases ∧
    phase_sequence_to_line_voltages phase_sequence true = Ok lines ∧
    length lines = length phases ∧
    length phases = phase_count phase_sequence ∧
    lines ≡ₚ map line_to_neutral phases.
Proof.
  destruct phase_sequence; do 2 eexists;
    (split; [vm_compute; reflexivity |]);
    (split; [vm_compute; reflexivity |]);
    (split; [reflexivity |]); (split; [reflexivity |]); compute_done.
Qed.

(** ** Product-type predicates *)

(** C6: [is_powertag] is false on the four accessories and true on every
    other product type; every feature class is non-empty and holds only
    product types on which [is_powertag] is true. *)
Theorem is_powertag_excludes_accessories :
  Forall (λ product_type, is_powertag product_type = false) accessories ∧
  (∀ product_type,
     (product_type ∈ accessories ∧ is_powertag product_type = false) ∨
     ((product_type ∉ accessories) ∧ is_powertag product_type = true)) ∧
  (∀ fc, FeatureClass.value fc ≠ [] ∧
         Forall (λ product_type, is_powertag product_type = true)
                (FeatureClass.value fc)).
Proof.
  split; [repeat constructor |].
  split.
  - intros []; first [ left; split; [compute_done | reflexivity]
                     | right; split; [compute_done | reflexivity] ].
  - intros []; (split; [discriminate | repeat constructor]).
Qed.

(** C7: two product types listed in the same feature class resolve to that
    class, and [has_neutral], [is_m] and [is_r] return (without raising) the
    same value on both. *)
Theorem same_feature_class_same_flags (fc : FeatureClass.t) (p q : ProductType.t) :
  p ∈ FeatureClass.value fc →
  q ∈ FeatureClass.value fc →
  feature_classes_of p = [fc] ∧ feature_classes_of q = [fc] ∧
  (∃ neutral, has_neutral p = Ok neutral ∧ has_neutral q = Ok neutral) ∧
  (∃ m, is_m p = Ok m ∧ is_m q = Ok m) ∧
  (∃ r, is_r p = Ok r ∧ is_r q = Ok r).
Proof.
  intros Hp Hq.
  destruct fc; cbn [FeatureClass.value] in Hp, Hq; set_unfold;
    repeat match goal with H : _ ∨ _ |- _ => destruct H end; subst; try done.
  all: split; [vm_compute; reflexivity |].
  all: split; [vm_compute; reflexivity |].
  all: split_and!; eexists; split; vm_compute; reflexivity.
Qed.

Lemma same_feature_class_same_flags_witness :
  ProductType.A9MEM1540 ∈ FeatureClass.value FeatureClass.A2 ∧
  ProductType.A9MEM1543 ∈ FeatureClass.value FeatureClass.A2 ∧
  (feature_classes_of ProductType.A9MEM1540 = [FeatureClass.A2] ∧
   feature_classes_of ProductType.A9MEM1543 = [FeatureClass.A2] ∧
   (∃ neutral, has_neutral ProductType.A9MEM1540 = Ok neutral ∧
               has_neutral ProductType.A9MEM1543 = Ok neutral) ∧
   (∃ m, is_m ProductType.A9MEM1540 = Ok m ∧ is_m ProductType.A9MEM1543 = Ok m) ∧
   (∃ r, is_r ProductType.A9MEM1540 = Ok r ∧ is_r ProductType.A9MEM1543 = Ok r)).
Proof.
  assert (Hp : ProductType.A9MEM1540 ∈ FeatureClass.value FeatureClass.A2)
    by (vm_compute; constructor).
  assert (Hq : ProductType.A9MEM1543 ∈ FeatureClass.value FeatureClass.A2)
    by (vm_compute; constructor; constructor).
  split; [exact Hp |]. split; [exact Hq |].
  exact (same_feature_class_same_flags FeatureClass.A2 _ _ Hp Hq).
Defined.

(** ** Device descriptions *)

Section SetupProperties.

Variables GATEWAY_DOMAIN TAG_DOMAIN : string.

Example reachable_tag_area :
  tag_device_info TAG_DOMAIN two_tag_gateway 101 "http://link" (GATEWAY_DOMAIN, "SN-0001")
    !! "suggested_area" = Some (VStr "kitchen").
Proof. vm_compute. reflexivity. Qed.

(** C5: [tag_device_info] always returns a description.  Its
    [suggested_area] entry is absent exactly when [tag_radio_lqi_gateway]
    answers [None] and holds the usage name otherwise; serial number,
    hardware and firmware revision, vendor, model and name (and the
    configuration URL, the gateway link and the identifier set) are present
    in both cases. *)
Theorem tag_device_info_unreachable (client : SchneiderModbus) (modbus_index : Z)
    (presentation_url : string) (gateway_identification : string * string) :
  let info :=
    tag_device_info TAG_DOMAIN client modbus_index presentation_url
      gateway_identification in
  info !! "suggested_area"
    = match tag_radio_lqi_gateway client modbus_index with
      | None => None
      | Some _ => Some (VStr (tag_usage client modbus_index))
      end ∧
  info !! "serial_number" = Some (VStr (tag_serial_number client modbus_index)) ∧
  info !! "hw_version" = Some (VStr (tag_hardware_revision client modbus_index)) ∧
  info !! "sw_version" = Some (VStr (tag_firmware_revision client modbus_index)) ∧
  info !! "manufacturer" = Some (VStr (tag_vendor_name client modbus_index)) ∧
  info !! "model" = Some (VStr (tag_product_model client modbus_index)) ∧
  info !! "name" = Some (VStr (tag_name client modbus_index)) ∧
  info !! "configuration_url" = Some (VStr presentation_url) ∧
  info !! "via_device" = Some (VTuple gateway_identification) ∧
  info !! "identifiers"
    = Some (VSet {[ (TAG_DOMAIN, tag_serial_number client modbus_index) ]}).
Proof.
  unfold tag_device_info.
  destruct (tag_radio_lqi_gateway client modbus_index) as [lqi|].
  - rewrite bool_decide_eq_false_2 by discriminate.
    cbv zeta. repeat split; vm_compute; reflexivity.
  - rewrite bool_decide_eq_true_2 by reflexivity.
    cbv zeta. repeat split; vm_compute; reflexivity.
Qed.

(** ** The set-up monad *)

Lemma silent_ret {A} (a : A) : silent (ret a).
Proof. intros s. reflexivity. Qed.

Lemma silent_lift {A} (r : result A) : silent (lift r).
Proof. intros s. reflexivity. Qed.

Lemma silent_append (e : Entity) : silent (append e).
Proof. intros s. reflexivity. Qed.

Lemma silent_extend (es : list Entity) : silent (extend es).
Proof. intros s. reflexivity. Qed.

Lemma silent_bind {A B} (m : Setup A) (k : A → Setup B) :
  silent m → (∀ a, silent (k a)) → silent (bind m k).
Proof.
  intros Hm Hk s. unfold bind. specialize (Hm s).
  destruct (m s) as [s' [a|e]]; simpl in *; [rewrite Hk |]; done.
Qed.

Lemma silent_for_each {A} (l : list A) (body : A → Setup unit) :
  (∀ x, silent (body x)) → silent (for_each l body).
Proof.
  intros Hbody. induction l as [|x l IH]; simpl; [apply silent_ret |].
  apply silent_bind; auto.
Qed.

Create HintDb silent.
#[local] Hint Resolve silent_ret silent_lift silent_append silent_extend : silent.

Ltac silent_step :=
  first [ apply silent_bind; [| intros ?]
        | apply silent_for_each; intros ?
        | match goal with |- silent (if ?b then _ else _) => destruct b end
        | progress auto with silent ].

(** Only the loop header probes the node table. *)
Lemma silent_setup_tag client presentation_url gateway_device modbus_address :
  silent (setup_tag TAG_DOMAIN client presentation_url gateway_device modbus_address).
Proof. unfold setup_tag. repeat silent_step. Qed.

Lemma appends_for_each {A} (l : list A) (body : A → Setup unit) (f : A → list Entity) :
  (∀ x, appends (body x) (f x)) → appends (for_each l body) (flat_map f l).
Proof.
  intros Hbody. induction l as [|x l IH]; intros s; simpl.
  - unfold ret. rewrite app_nil_r. by destruct s.
  - unfold bind. rewrite Hbody, IH. simpl. by rewrite app_assoc.
Qed.

(** ** The body of the discovery loop *)

Lemma next_iter_singleton (x : string * string) : next_iter (VSet {[ x ]}) = Ok x.
Proof. unfold next_iter. by rewrite elements_singleton. Qed.

Lemma gateway_identifiers client presentation_url :
  device_getitem (gateway_device_info GATEWAY_DOMAIN client presentation_url) "identifiers"
  = Ok (VSet {[ (GATEWAY_DOMAIN, serial_number client) ]}).
Proof. vm_compute. reflexivity. Qed.

Lemma has_neutral_powertag product_type :
  is_powertag product_type = true →
  has_neutral product_type = Ok (neutral_of product_type).
Proof. destruct product_type; intros H; try discriminate H; vm_compute; reflexivity. Qed.

Lemma has_neutral_accessory product_type :
  is_powertag product_type = false → has_neutral product_type = Raise IndexError.
Proof. destruct product_type; intros H; try discriminate H; vm_compute; reflexivity. Qed.


Lemma phases_of_Ok phase_sequence :
  phase_sequence_to_phases phase_sequence = Ok (phases_of phase_sequence).
Proof. destruct phase_sequence; vm_compute; reflexivity. Qed.

Lemma lines_of_Ok phase_sequence neutral :
  phase_sequence_to_line_voltages phase_sequence neutral
  = Ok (lines_of phase_sequence neutral).
Proof. destruct phase_sequence, neutral; vm_compute; reflexivity. Qed.

#[local] Arguments tag_entities : simpl never.

(** For a tag whose product type [is_powertag] accepts, one turn of the loop
    returns after adding that tag's entities. *)
Lemma setup_tag_appends client presentation_url modbus_address :
  is_powertag (tag_product_type client modbus_address) = true →
  appends (setup_tag TAG_DOMAIN client presentation_url
             (gateway_device_info GATEWAY_DOMAIN client presentation_url) modbus_address)
          (tag_entities GATEWAY_DOMAIN TAG_DOMAIN client presentation_url modbus_address).
Proof.
  intros Hpt s. unfold setup_tag, tag_entities.
  unfold bind at 1. unfold lift at 1. rewrite gateway_identifiers.
  unfold bind at 1. unfold lift at 1. rewrite next_iter_singleton.
  set (tag_device := tag_device_info _ _ _ _ _).
  unfold bind at 1. unfold extend at 1.
  unfold bind at 1. unfold lift at 1. rewrite (has_neutral_powertag _ Hpt).
  unfold bind at 1. unfold lift at 1. rewrite phases_of_Ok.
  unfold bind at 1.
  rewrite (appends_for_each _ _
             (per_phase_entities modbus_address tag_device
                (neutral_of (tag_product_type client modbus_address)))).
  2:{ intros phase s'. unfold bind, append, per_phase_entities. simpl.
      destruct (neutral_of _); simpl; unfold append, ret; simpl;
        [by rewrite <- app_assoc | done]. }
  unfold bind at 1. unfold lift at 1. rewrite lines_of_Ok.
  rewrite (appends_for_each _ _ (λ line, [PowerTagVoltage modbus_address tag_device line])).
  2:{ intros line s'. reflexivity. }
  simpl. rewrite <- !app_assoc. reflexivity.
Qed.

(** For an accessory, the turn ends in the [IndexError] of [has_neutral]. *)
Lemma setup_tag_accessory client presentation_url modbus_address s :
  is_powertag (tag_product_type client modbus_address) = false →
  ∃ s', setup_tag TAG_DOMAIN client presentation_url
          (gateway_device_info GATEWAY_DOMAIN client presentation_url) modbus_address s
        = (s', Raise IndexError).
Proof.
  intros Hpt. unfold setup_tag.
  unfold bind at 1. unfold lift at 1. rewrite gateway_identifiers.
  unfold bind at 1. unfold lift at 1. rewrite next_iter_singleton.
  unfold bind at 1. unfold extend at 1.
  unfold bind at 1. unfold lift at 1. rewrite (has_neutral_accessory _ Hpt).
  eexists. reflexivity.
Qed.

(** ** The discovery loop *)

(** Whatever happens, the loop probes a prefix of its range, in order. *)
Lemma discovery_loop_probes client presentation_url gateway_device range s :
  ∃ n, (n ≤ length range)%nat ∧
       probed (discovery_loop TAG_DOMAIN client presentation_url gateway_device range s).1
       = probed s ++ take n range.
Proof.
  revert s. induction range as [|i range IH]; intros s.
  - exists 0%nat. simpl. by rewrite app_nil_r.
  - simpl. unfold bind at 1. unfold probe at 1.
    destruct (modbus_address_of_node client i) as [a|].
    + unfold bind at 1.
      pose proof (silent_setup_tag client presentation_url gateway_device a
                    {| probed := probed s ++ [i]; entities := entities s |}) as Htag.
      destruct (setup_tag _ _ _ _ _ _) as [s1 [[]|e]]; simpl in Htag.
      * destruct (IH s1) as (n & Hn & Hp). exists (S n). split; [simpl; lia |].
        rewrite Hp, Htag. simpl. by rewrite <- app_assoc.
      * exists 1%nat. split; [simpl; lia |]. simpl. by rewrite Htag.
    + exists 1%nat. split; [simpl; lia | reflexivity].
Qed.

(** When every attached tag is one [is_powertag] accepts, the loop returns
    after probing the attached positions and the first empty one, and has
    added the entities of each attached tag in turn. *)
Lemma discovery_loop_powertags client presentation_url range s :
  Forall (λ a, is_powertag (tag_product_type client a) = true) (attached client range) →
  discovery_loop TAG_DOMAIN client presentation_url
    (gateway_device_info GATEWAY_DOMAIN client presentation_url) range s
  = ({| probed := probed s ++ take (S (length (attached client range))) range;
        entities := entities s
                    ++ flat_map (tag_entities GATEWAY_DOMAIN TAG_DOMAIN client presentation_url)
                         (attached client range) |},
     Ok tt).
Proof.
  revert s. induction range as [|i range IH]; intros s Hall.
  - simpl. unfold ret. rewrite !app_nil_r. by destruct s.
  - cbn [discovery_loop attached] in *. unfold bind at 1. unfold probe at 1.
    destruct (modbus_address_of_node client i) as [a|]; cbn [length take flat_map].
    + apply Forall_cons in Hall as [Ha Hall].
      unfold bind at 1. rewrite (setup_tag_appends _ _ _ Ha).
      rewrite (IH _ Hall). cbn [probed entities]. by rewrite <- !app_assoc.
    + simpl. unfold ret. rewrite take_0, app_nil_r. reflexivity.
Qed.

Lemma take_range (n : nat) : (n ≤ 99)%nat → take n (seqZ 1 99) = seqZ 1 (Z.of_nat n).
Proof.
  intros Hn. replace 99 with (Z.of_nat n + (99 - Z.of_nat n)) at 1 by lia.
  rewrite seqZ_app by lia. rewrite take_app_length'; [done |].
  rewrite length_seqZ. lia.
Qed.

(** The node table read from position [m]: [k] devices, then none. *)
Lemma attached_prefix client (k : nat) (m n : Z) :
  Z.of_nat k < n →
  (∀ j, (j < k)%nat → is_Some (modbus_address_of_node client (m + Z.of_nat j))) →
  modbus_address_of_node client (m + Z.of_nat k) = None →
  length (attached client (seqZ m n)) = k.
Proof.
  revert m n. induction k as [|k IH]; intros m n Hn Hsome Hnone.
  - rewrite seqZ_cons by lia. simpl. rewrite Z.add_0_r in Hnone. by rewrite Hnone.
  - rewrite seqZ_cons by lia. simpl.
    destruct (Hsome 0%nat ltac:(lia)) as [a Ha].
    rewrite Z.add_0_r in Ha. rewrite Ha. simpl.
    f_equal. apply IH; [lia | |].
    + intros j Hj. replace (Z.succ m + Z.of_nat j) with (m + Z.of_nat (S j)) by lia.
      apply Hsome. lia.
    + replace (Z.succ m + Z.of_nat k) with (m + Z.of_nat (S k)) by lia. done.
Qed.

Lemma attached_Forall client (P : Z → Prop) range :
  (∀ i a, i ∈ range → modbus_address_of_node client i = Some a → P a) →
  Forall P (attached client range).
Proof.
  induction range as [|i range IH]; intros HP; simpl; [constructor |].
  destruct (modbus_address_of_node client i) as [a|] eqn:Ha; [| constructor].
  constructor.
  - apply (HP i a); [left | done].
  - apply IH. intros i' a' Hi'. apply HP. by right.
Qed.

(** What a set-up registers when every attached tag is one [is_powertag]
    accepts. *)
Lemma setup_powertags client presentation_url :
  Forall (λ a, is_powertag (tag_product_type client a) = true)
         (attached client (seqZ 1 99)) →
  async_setup_entry GATEWAY_DOMAIN TAG_DOMAIN client presentation_url
  = {| queried := take (S (length (attached client (seqZ 1 99)))) (seqZ 1 99);
       registered :=
         Ok (GatewayTime (gateway_device_info GATEWAY_DOMAIN client presentation_url)
               :: flat_map (tag_entities GATEWAY_DOMAIN TAG_DOMAIN client presentation_url)
                    (attached client (seqZ 1 99))) |}.
Proof.
  intros Hall. unfold async_setup_entry. unfold bind at 1. unfold append at 1.
  rewrite (discovery_loop_powertags _ _ _ _ Hall). reflexivity.
Qed.

(** With the guard that the loop lacks taken as a premise, discovery is as
    the node table dictates: [k - 1] metering tags followed by an empty
    position make the loop probe 1, ..., k and register the gateway clock
    and the entities of those [k - 1] tags. *)
Lemma discovery_stops_at_first_absent client presentation_url (k : Z) :
  1 ≤ k ≤ 99 →
  (∀ i, 1 ≤ i < k → ∃ a, modbus_address_of_node client i = Some a ∧
                          is_powertag (tag_product_type client a) = true) →
  modbus_address_of_node client k = None →
  let outcome := async_setup_entry GATEWAY_DOMAIN TAG_DOMAIN client presentation_url in
  queried outcome = seqZ 1 k ∧
  length (attached client (seqZ 1 99)) = Z.to_nat (k - 1) ∧
  registered outcome
  = Ok (GatewayTime (gateway_device_info GATEWAY_DOMAIN client presentation_url)
          :: flat_map (tag_entities GATEWAY_DOMAIN TAG_DOMAIN client presentation_url)
               (attached client (seqZ 1 99))).
Proof.
  intros Hk Hsome Hnone outcome.
  assert (Hlen : length (attached client (seqZ 1 99)) = Z.to_nat (k - 1)).
  { apply attached_prefix; [lia | |].
    - intros j Hj. destruct (Hsome (1 + Z.of_nat j)) as (a & Ha & _); [lia |].
      rewrite Ha. by eexists.
    - replace (1 + Z.of_nat (Z.to_nat (k - 1))) with k by lia. done. }
  assert (Hall : Forall (λ a, is_powertag (tag_product_type client a) = true)
                        (attached client (seqZ 1 99))).
  { assert (Hpre : ∀ (j : nat) m n,
               (∀ i, m ≤ i < m + Z.of_nat j → ∃ a, modbus_address_of_node client i = Some a ∧
                          is_powertag (tag_product_type client a) = true) →
               modbus_address_of_node client (m + Z.of_nat j) = None →
               Z.of_nat j < n →
               Forall (λ a, is_powertag (tag_product_type client a) = true)
                      (attached client (seqZ m n))).
    { induction j as [|j IH]; intros m n Hs Hn Hlt; rewrite seqZ_cons by lia; simpl.
      - rewrite Z.add_0_r in Hn. rewrite Hn. constructor.
      - destruct (Hs m ltac:(lia)) as (a & Ha & Hpt). rewrite Ha. constructor; [done |].
        apply IH; [| | lia].
        + intros i Hi. apply Hs. lia.
        + replace (Z.succ m + Z.of_nat j) with (m + Z.of_nat (S j)) by lia. done. }
    apply (Hpre (Z.to_nat (k - 1))); [| | lia].
    - intros i Hi. apply Hsome. lia.
    - replace (1 + Z.of_nat (Z.to_nat (k - 1))) with k by lia. done. }
  subst outcome. rewrite (setup_powertags _ _ Hall). cbn [queried registered].
  split; [| split; [exact Hlen | reflexivity]].
  rewrite Hlen, take_range by lia. f_equal. lia.
Qed.

Example two_tags_discovered :
  queried (async_setup_entry GATEWAY_DOMAIN TAG_DOMAIN two_tag_gateway "http://link")
  = [1; 2; 3].
Proof.
  apply (discovery_stops_at_first_absent two_tag_gateway "http://link" 3);
    [lia | | reflexivity].
  intros i Hi. assert (i = 1 ∨ i = 2) as [-> | ->] by lia;
    eexists; split; vm_compute; reflexivity.
Qed.

(** C10: whatever the gateway answers, the positions probed by
    [async_setup_entry] are 1, 2, ..., n for some n of at most 99; so there
    are at most 99 probes, each of a position between 1 and 99, also when no
    position ever reports an absent device. *)
Theorem discovery_probes_at_most_99 (client : SchneiderModbus) (presentation_url : string) :
  let positions :=
    queried (async_setup_entry GATEWAY_DOMAIN TAG_DOMAIN client presentation_url) in
  (∃ n : nat, (n ≤ 99)%nat ∧ positions = seqZ 1 (Z.of_nat n)) ∧
  (length positions ≤ 99)%nat ∧
  Forall (λ i, 1 ≤ i ≤ 99) positions.
Proof.
  intros positions.
  assert (Hprefix : ∃ n : nat, (n ≤ 99)%nat ∧ positions = seqZ 1 (Z.of_nat n)).
  { subst positions. unfold async_setup_entry. unfold bind at 1. unfold append at 1.
    match goal with |- context [discovery_loop ?t ?c ?u ?g ?r ?s] =>
      destruct (discovery_loop_probes c u g r s) as (n & Hn & Hp);
      destruct (discovery_loop t c u g r s) as [s' [[]|e]] end.
    all: rewrite length_seqZ in Hn; exists n; split; [lia |];
         simpl in *; rewrite Hp; simpl; apply take_range; lia. }
  split; [exact Hprefix |].
  destruct Hprefix as (n & Hn & ->). split.
  - rewrite length_seqZ. lia.
  - apply Forall_seqZ. intros i Hi. lia.
Qed.

(** A node table that never reports an absent device is probed at the
    positions 1 to 99 and no further. *)
Lemma discovery_never_absent client presentation_url :
  (∀ i, 1 ≤ i ≤ 99 → ∃ a, modbus_address_of_node client i = Some a ∧
                           is_powertag (tag_product_type client a) = true) →
  queried (async_setup_entry GATEWAY_DOMAIN TAG_DOMAIN client presentation_url) = seqZ 1 99.
Proof.
  intros Hsome.
  assert (Hall : Forall (λ a, is_powertag (tag_product_type client a) = true)
                        (attached client (seqZ 1 99))).
  { apply attached_Forall. intros i a Hi Ha. apply elem_of_seqZ in Hi.
    destruct (Hsome i ltac:(lia)) as (a' & Ha' & Hpt). congruence. }
  rewrite (setup_powertags _ _ Hall). cbn [queried].
  assert (Hlen : length (attached client (seqZ 1 99)) = 99%nat).
  { assert (Hgen : ∀ range, (∀ i, i ∈ range → is_Some (modbus_address_of_node client i)) →
                            length (attached client range) = length range).
    { induction range as [|i range IH]; intros Hr; simpl; [done |].
      destruct (Hr i ltac:(left)) as [a Ha]. rewrite Ha. simpl. f_equal.
      apply IH. intros i' Hi'. apply Hr. by right. }
    rewrite Hgen; [by rewrite length_seqZ |].
    intros i Hi. apply elem_of_seqZ in Hi.
    destruct (Hsome i ltac:(lia)) as (a & Ha & _). rewrite Ha. by eexists. }
  rewrite Hlen. apply take_ge. rewrite length_seqZ. lia.
Qed.

Example crowded_gateway_probes :
  queried (async_setup_entry GATEWAY_DOMAIN TAG_DOMAIN crowded_gateway "http://link")
  = seqZ 1 99.
Proof.
  apply discovery_never_absent. intros i Hi. exists i. split; reflexivity.
Qed.

(** The defect in general: at the first attached device that [is_powertag]
    rejects, the loop ends in an [IndexError]; the positions after that
    device are never probed. *)
Lemma discovery_loop_accessory client presentation_url range s good bad rest :
  attached client range = good ++ bad :: rest →
  Forall (λ a, is_powertag (tag_product_type client a) = true) good →
  is_powertag (tag_product_type client bad) = false →
  ∃ s', discovery_loop TAG_DOMAIN client presentation_url
          (gateway_device_info GATEWAY_DOMAIN client presentation_url) range s
        = (s', Raise IndexError) ∧
        probed s' = probed s ++ take (S (length good)) range.
Proof.
  revert range s. induction good as [|g good IH]; intros range s Hatt Hgood Hbad.
  - destruct range as [|i range]; [discriminate Hatt |].
    cbn [attached discovery_loop] in *. unfold bind at 1. unfold probe at 1.
    destruct (modbus_address_of_node client i) as [a|]; [| discriminate Hatt].
    injection Hatt as -> _.
    unfold bind at 1.
    pose proof (silent_setup_tag client presentation_url
                  (gateway_device_info GATEWAY_DOMAIN client presentation_url) bad
                  {| probed := probed s ++ [i]; entities := entities s |}) as Hsilent.
    destruct (setup_tag_accessory client presentation_url bad
                {| probed := probed s ++ [i]; entities := entities s |} Hbad) as [s' Hs'].
    rewrite Hs' in Hsilent |- *. exists s'. split; [reflexivity |].
    simpl in Hsilent. rewrite Hsilent. simpl. by rewrite take_0.
  - destruct range as [|i range]; [discriminate Hatt |].
    cbn [attached discovery_loop] in *. unfold bind at 1. unfold probe at 1.
    destruct (modbus_address_of_node client i) as [a|]; [| discriminate Hatt].
    injection Hatt as -> Hatt.
    apply Forall_cons in Hgood as [Hg Hgood].
    unfold bind at 1. rewrite (setup_tag_appends _ _ _ Hg).
    destruct (IH range
                {| probed := probed s ++ [i];
                   entities := entities s
                               ++ tag_entities GATEWAY_DOMAIN TAG_DOMAIN client
                                    presentation_url g |}
                Hatt Hgood Hbad) as (s' & Hs' & Hp).
    cbn [probed entities] in *. rewrite Hs'. exists s'. split; [reflexivity |].
    rewrite Hp. cbn [length take]. by rewrite <- app_assoc.
Qed.

Lemma setup_accessory client presentation_url good bad rest :
  attached client (seqZ 1 99) = good ++ bad :: rest →
  Forall (λ a, is_powertag (tag_product_type client a) = true) good →
  is_powertag (tag_product_type client bad) = false →
  async_setup_entry GATEWAY_DOMAIN TAG_DOMAIN client presentation_url
  = {| queried := take (S (length good)) (seqZ 1 99); registered := Raise IndexError |}.
Proof.
  intros Hatt Hgood Hbad. unfold async_setup_entry. unfold bind at 1. unfold append at 1.
  match goal with |- context [discovery_loop ?t ?c ?u ?g ?r ?s] =>
    destruct (discovery_loop_accessory c u r s good bad rest Hatt Hgood Hbad)
      as (s' & -> & Hp) end.
  rewrite Hp. reflexivity.
Qed.

(** C4: a gateway with a metering tag at position 1, a heat sensor at
    position 2 and nothing at position 3 has a node table of the shape the
    claim asks for (k = 3), yet set-up probes positions 1 and 2 only and
    ends in the [IndexError] that [has_neutral] raises on the heat sensor,
    before anything is registered. *)
Theorem discovery_aborts_on_accessory :
  modbus_address_of_node heat_tag_gateway 1 = Some 101 ∧
  modbus_address_of_node heat_tag_gateway 2 = Some 102 ∧
  modbus_address_of_node heat_tag_gateway 3 = None ∧
  tag_product_type heat_tag_gateway 102 = ProductType.SMT10020 ∧
  async_setup_entry GATEWAY_DOMAIN TAG_DOMAIN heat_tag_gateway "http://link"
  = {| queried := [1; 2]; registered := Raise IndexError |}.
Proof.
  do 4 (split; [vm_compute; reflexivity |]).
  apply (setup_accessory heat_tag_gateway "http://link" [101] 102 []).
  - vm_compute. reflexivity.
  - repeat constructor.
  - reflexivity.
Qed.

(** ** Per-phase entities *)






End SetupProperties.



(** * Further properties *)

(** ** Classification *)

(** X1: [is_powertag] is an exact guard for the three classification
    predicates: on a product type it accepts all three return, and never
    with both the M and the R flag; on one it rejects all three raise
    [IndexError]. *)
Theorem is_powertag_guards_classification (product_type : ProductType.t) :
  if is_powertag product_type
  then ∃ neutral m r,
         has_neutral product_type = Ok neutral ∧
         is_m product_type = Ok m ∧
         is_r product_type = Ok r ∧
         m && r = false
  else has_neutral product_type = Raise IndexError ∧
       is_m product_type = Raise IndexError ∧
       is_r product_type = Raise IndexError.
Proof.
  destruct (is_powertag product_type) eqn:E; destruct product_type;
    try (vm_compute in E; discriminate E); clear E.
  all: try (do 3 eexists; repeat split; vm_compute; reflexivity).
  all: repeat split; vm_compute; reflexivity.
Qed.

(** X2: the phases tell the wiring order: two phase sequences with the same
    list of phases are the same sequence, and no phase is listed twice. *)
Theorem phase_sequence_to_phases_inj (s1 s2 : PhaseSequence.t) :
  phase_sequence_to_phases s1 = phase_sequence_to_phases s2 →
  s1 = s2 ∧ ∃ phases, phase_sequence_to_phases s1 = Ok phases ∧ NoDup phases.
Proof.
  intros H. split.
  - destruct s1, s2; try reflexivity; vm_compute in H; discriminate H.
  - clear H. destruct s1; eexists; (split; [vm_compute; reflexivity | compute_done]).
Qed.

Lemma phase_sequence_to_phases_inj_witness :
  phase_sequence_to_phases PhaseSequence.BCA = phase_sequence_to_phases PhaseSequence.BCA ∧
  (PhaseSequence.BCA = PhaseSequence.BCA ∧
   ∃ phases, phase_sequence_to_phases PhaseSequence.BCA = Ok phases ∧ NoDup phases).
Proof.
  split; [reflexivity |].
  exact (phase_sequence_to_phases_inj PhaseSequence.BCA PhaseSequence.BCA eq_refl).
Defined.

(** X3: the voltages of a tag are all of one kind, line-to-neutral when the
    neutral flag is set and line-to-line when it is not, and none is listed
    twice. *)
Theorem line_voltages_of_one_kind (phase_sequence : PhaseSequence.t) (neutral : bool) :
  ∃ lines,
    phase_sequence_to_line_voltages phase_sequence neutral = Ok lines ∧
    NoDup lines ∧
    Forall (λ line, to_neutral line = neutral) lines.
Proof.
  destruct phase_sequence, neutral; eexists;
    (split; [vm_compute; reflexivity |]); (split; [compute_done | repeat constructor]).
Qed.

(** ** Class attributes *)

(** X4: two entities of the same device class have the same unit and the
    same state class; an entity with a device class has a unit, is
    accumulated as a total exactly when the class is energy, and is
    diagnostic exactly when the class is signal strength. *)
Theorem device_class_fixes_unit (e1 e2 : Entity) :
  attr_device_class e1 = attr_device_class e2 →
  is_Some (attr_device_class e1) →
  attr_native_unit_of_measurement e1 = attr_native_unit_of_measurement e2 ∧
  attr_state_class e1 = attr_state_class e2 ∧
  is_Some (attr_native_unit_of_measurement e1) ∧
  (attr_state_class e1 = Some TOTAL ↔ attr_device_class e1 = Some ENERGY) ∧
  (attr_entity_category e1 = Some DIAGNOSTIC ↔
   attr_device_class e1 = Some SIGNAL_STRENGTH).
Proof.
  intros Heq [dc Hdc].
  destruct e1; simpl in Hdc; try discriminate Hdc;
    destruct e2; simpl in Heq; try discriminate Heq;
    simpl; (split; [reflexivity |]); (split; [reflexivity |]);
    (split; [by eexists |]); split; split; intros H; try discriminate H; reflexivity.
Qed.

(** ** Set-up as a whole *)

Section MoreSetupProperties.

Variables GATEWAY_DOMAIN TAG_DOMAIN : string.

(** A list either satisfies a decidable property throughout or splits at
    the first element that does not. *)
Lemma first_failure {A} (P : A → Prop) `{∀ x, Decision (P x)} (l : list A) :
  Forall P l ∨ ∃ good bad rest, l = good ++ bad :: rest ∧ Forall P good ∧ ¬ P bad.
Proof.
  induction l as [|x l IH]; [left; constructor |].
  destruct (decide (P x)) as [Hx | Hx].
  - destruct IH as [IH | (good & bad & rest & -> & Hgood & Hbad)].
    + left. by constructor.
    + right. exists (x :: good), bad, rest. split; [reflexivity |].
      split; [by constructor | done].
  - right. exists [], x, l. split; [reflexivity |]. split; [constructor | done].
Qed.

(** The two ways set-up can end, with the probes made in each. *)
Lemma setup_outcome_cases client presentation_url :
  let tags := attached client (seqZ 1 99) in
  (Forall (λ a, is_powertag (tag_product_type client a) = true) tags ∧
   async_setup_entry GATEWAY_DOMAIN TAG_DOMAIN client presentation_url
   = {| queried := take (S (length tags)) (seqZ 1 99);
        registered :=
          Ok (GatewayTime (gateway_device_info GATEWAY_DOMAIN client presentation_url)
                :: flat_map (tag_entities GATEWAY_DOMAIN TAG_DOMAIN client presentation_url)
                     tags) |})
  ∨
  (∃ good bad rest,
     tags = good ++ bad :: rest ∧
     Forall (λ a, is_powertag (tag_product_type client a) = true) good ∧
     is_powertag (tag_product_type client bad) = false ∧
     async_setup_entry GATEWAY_DOMAIN TAG_DOMAIN client presentation_url
     = {| queried := take (S (length good)) (seqZ 1 99); registered := Raise IndexError |}).
Proof.
  intros tags.
  destruct (first_failure (λ a, is_powertag (tag_product_type client a) = true) tags)
    as [Hall | (good & bad & rest & Htags & Hgood & Hbad)].
  - left. split; [exact Hall |]. by apply setup_powertags.
  - right. apply not_true_is_false in Hbad. exists good, bad, rest.
    split; [exact Htags |]. split; [exact Hgood |]. split; [exact Hbad |].
    by apply (setup_accessory _ _ _ _ good bad rest).
Qed.

(** X5: once the client and the presentation URL are at hand, and for
    client reads that return, the rest of set-up (from [entities = []] to
    [async_add_entities]) ends in one of two ways.  When [is_powertag]
    accepts every attached device, it registers a list headed by the
    gateway clock, after probing the attached positions and, below 99 of
    them, the first empty one; when it rejects one, set-up ends in
    [IndexError] with nothing registered, having probed no position after
    that device.  The subscript [gateway_device["identifiers"]], the
    [next(iter(...))] on it and the dictionaries of the two phase functions
    never raise there. *)
Theorem setup_succeeds_iff_powertags (client : SchneiderModbus) (presentation_url : string) :
  let outcome := async_setup_entry GATEWAY_DOMAIN TAG_DOMAIN client presentation_url in
  let tags := attached client (seqZ 1 99) in
  (Forall (λ a, is_powertag (tag_product_type client a) = true) tags ∧
   (∃ ents, registered outcome = Ok ents ∧
            head ents
            = Some (GatewayTime (gateway_device_info GATEWAY_DOMAIN client presentation_url))) ∧
   length (queried outcome) = ((length tags + 1) `min` 99)%nat)
  ∨
  (Exists (λ a, is_powertag (tag_product_type client a) = false) tags ∧
   registered outcome = Raise IndexError ∧
   ∃ i bad, last (queried outcome) = Some i ∧
            modbus_address_of_node client i = Some bad ∧
            is_powertag (tag_product_type client bad) = false).
Proof.
  intros outcome tags. subst outcome tags.
  destruct (setup_outcome_cases client presentation_url)
    as [[Hall ->] | (good & bad & rest & Htags & Hgood & Hbad & ->)].
  - left. split; [exact Hall |]. split; [by eexists |].
    cbn [queried]. rewrite length_take, length_seqZ. lia.
  - right. split; [rewrite Htags; apply Exists_app; right; by left |].
    split; [reflexivity |]. cbn [queried].
    assert (Hat : ∀ range good',
              attached client range = good' ++ bad :: rest →
              ∃ i, last (take (S (length good')) range) = Some i ∧
                   modbus_address_of_node client i = Some bad).
    { induction range as [|i range IH]; intros good' Hsplit;
        [by destruct good' |].
      cbn [attached] in Hsplit.
      destruct (modbus_address_of_node client i) as [a|] eqn:Hi; [| by destruct good'].
      destruct good' as [|g good'].
      - injection Hsplit as -> _. exists i. cbn [length take]. by rewrite take_0.
      - injection Hsplit as -> Hsplit. destruct (IH good' Hsplit) as (i' & Hlast & Hi').
        exists i'. split; [| exact Hi'].
        cbn [length take]. destruct (take (S (length good')) range) eqn:Ht;
          [discriminate Hlast | exact Hlast]. }
    destruct (Hat (seqZ 1 99) good Htags) as (i & Hlast & Hi).
    exists i, bad. done.
Qed.

Lemma setup_registered client presentation_url ents :
  registered (async_setup_entry GATEWAY_DOMAIN TAG_DOMAIN client presentation_url) = Ok ents →
  Forall (λ a, is_powertag (tag_product_type client a) = true) (attached client (seqZ 1 99)) ∧
  ents = GatewayTime (gateway_device_info GATEWAY_DOMAIN client presentation_url)
         :: flat_map (tag_entities GATEWAY_DOMAIN TAG_DOMAIN client presentation_url)
              (attached client (seqZ 1 99)).
Proof.
  intros Hok.
  destruct (setup_outcome_cases client presentation_url)
    as [[Hall Hreg] | (good & bad & rest & _ & _ & _ & Hreg)];
    rewrite Hreg in Hok; cbn [registered] in Hok; [| discriminate Hok].
  split; [exact Hall | congruence].
Qed.

Lemma length_tag_entities client presentation_url a :
  length (tag_entities GATEWAY_DOMAIN TAG_DOMAIN client presentation_url a)
  = tag_entity_count (tag_phase_sequence client a)
      (neutral_of (tag_product_type client a)).
Proof.
  unfold tag_entities. rewrite !length_app, length_map.
  destruct (tag_phase_sequence client a), (neutral_of (tag_product_type client a));
    reflexivity.
Qed.

(** X6: a set-up that completes registers one entity for the gateway and,
    for each attached tag, twelve entities, one or (with neutral) two per
    phase, and one per line voltage: between 12 and 21 per tag. *)
Theorem setup_entity_count (client : SchneiderModbus) (presentation_url : string)
    (ents : list Entity) :
  registered (async_setup_entry GATEWAY_DOMAIN TAG_DOMAIN client presentation_url) = Ok ents →
  length ents
  = S (sum_list (map (λ a, tag_entity_count (tag_phase_sequence client a)
                             (neutral_of (tag_product_type client a)))
                     (attached client (seqZ 1 99)))) ∧
  (1 + 12 * length (attached client (seqZ 1 99)) ≤ length ents
   ≤ 1 + 21 * length (attached client (seqZ 1 99)))%nat.
Proof.
  intros Hok. apply setup_registered in Hok as [_ ->]. cbn [length].
  assert (Hlen : ∀ tags,
            length (flat_map (tag_entities GATEWAY_DOMAIN TAG_DOMAIN client presentation_url) tags)
            = sum_list (map (λ a, tag_entity_count (tag_phase_sequence client a)
                                    (neutral_of (tag_product_type client a))) tags)).
  { induction tags as [|a tags IH]; [reflexivity |].
    cbn [flat_map map]. rewrite length_app, length_tag_entities, IH. reflexivity. }
  rewrite Hlen. split; [reflexivity |].
  induction (attached client (seqZ 1 99)) as [|a tags IH]; [simpl; lia |].
  cbn [map length].
  change (sum_list (?x :: ?l)) with (x + sum_list l)%nat.
  assert (12 ≤ tag_entity_count (tag_phase_sequence client a)
                  (neutral_of (tag_product_type client a)) ≤ 21)%nat.
  { destruct (tag_phase_sequence client a), (neutral_of (tag_product_type client a));
      cbv [tag_entity_count phase_count]; lia. }
  lia.
Qed.

(** ** The entities of a tag *)

Lemma tag_entities_owner client presentation_url a :
  Forall (λ e, entity_modbus_index e = Some a ∧
               attr_device_info e
               = tag_device_info TAG_DOMAIN client a presentation_url
                   (GATEWAY_DOMAIN, serial_number client))
         (tag_entities GATEWAY_DOMAIN TAG_DOMAIN client presentation_url a).
Proof.
  unfold tag_entities. rewrite !Forall_app. split; [repeat constructor |]. split.
  - apply Forall_flat_map, Forall_forall. intros phase _.
    unfold per_phase_entities. destruct (neutral_of _); repeat constructor.
  - apply Forall_fmap, Forall_forall. intros line _. split; reflexivity.
Qed.

Lemma tag_device_via_device client a presentation_url gateway_identification :
  tag_device_info TAG_DOMAIN client a presentation_url gateway_identification
    !! "via_device" = Some (VTuple gateway_identification).
Proof.
  unfold tag_device_info. destruct (negb _); vm_compute; reflexivity.
Qed.

Lemma elem_of_registered client presentation_url tags e a :
  e ∈ GatewayTime (gateway_device_info GATEWAY_DOMAIN client presentation_url)
      :: flat_map (tag_entities GATEWAY_DOMAIN TAG_DOMAIN client presentation_url) tags →
  entity_modbus_index e = Some a →
  a ∈ tags ∧ e ∈ tag_entities GATEWAY_DOMAIN TAG_DOMAIN client presentation_url a.
Proof.
  intros He Ha. apply elem_of_cons in He as [-> | He]; [discriminate Ha |].
  apply list_elem_of_In, in_flat_map in He as (b & Hb & He).
  apply list_elem_of_In in Hb, He.
  pose proof (tag_entities_owner client presentation_url b) as Hown.
  rewrite Forall_forall in Hown. destruct (Hown e He) as [Hidx _].
  rewrite Ha in Hidx. injection Hidx as ->. done.
Qed.

(** X7: in a set-up that completes, every entity of a tag carries the
    description of its own tag, whose [via_device] entry is the one
    identifier of the gateway's description, held by the clock entity that
    heads the list; and the tag is one of the attached ones. *)
Theorem tag_entities_linked_to_gateway (client : SchneiderModbus)
    (presentation_url : string) (ents : list Entity) (e : Entity) (a : Z) :
  registered (async_setup_entry GATEWAY_DOMAIN TAG_DOMAIN client presentation_url) = Ok ents →
  e ∈ ents →
  entity_modbus_index e = Some a →
  a ∈ attached client (seqZ 1 99) ∧
  attr_device_info e
  = tag_device_info TAG_DOMAIN client a presentation_url
      (GATEWAY_DOMAIN, serial_number client) ∧
  ∃ link gateway_device,
    attr_device_info e !! "via_device" = Some (VTuple link) ∧
    head ents = Some (GatewayTime gateway_device) ∧
    gateway_device !! "identifiers" = Some (VSet {[ link ]}).
Proof.
  intros Hok He Ha. apply setup_registered in Hok as [_ ->].
  destruct (elem_of_registered _ _ _ _ _ He Ha) as [Htag Hin].
  pose proof (tag_entities_owner client presentation_url a) as Hown.
  rewrite Forall_forall in Hown. destruct (Hown e Hin) as [_ Hdev].
  split; [exact Htag |]. split; [exact Hdev |].
  exists (GATEWAY_DOMAIN, serial_number client),
         (gateway_device_info GATEWAY_DOMAIN client presentation_url).
  split; [| split; [reflexivity | vm_compute; reflexivity]].
  rewrite Hdev. apply tag_device_via_device.
Qed.

Lemma filter_voltage_tag_entities client presentation_url a :
  List.filter is_voltage (tag_entities GATEWAY_DOMAIN TAG_DOMAIN client presentation_url a)
  = map (PowerTagVoltage a
           (tag_device_info TAG_DOMAIN client a presentation_url
              (GATEWAY_DOMAIN, serial_number client)))
        (lines_of (tag_phase_sequence client a) (neutral_of (tag_product_type client a))).
Proof.
  unfold tag_entities. rewrite !List.filter_app.
  cbn [List.filter is_voltage app].
  set (tag_device := tag_device_info _ _ _ _ _).
  assert (Hphases : ∀ neutral phases,
            List.filter is_voltage
              (flat_map (per_phase_entities a tag_device neutral) phases) = []).
  { intros neutral phases. induction phases as [|phase phases IH]; [reflexivity |].
    destruct neutral; simpl in *; exact IH. }
  rewrite Hphases. cbn [app].
  induction (lines_of _ _) as [|line lines IH]; [reflexivity |].
  simpl. by rewrite IH.
Qed.

(** X8: in a set-up that completes, the voltage entities are, tag by tag in
    probing order, one per line voltage that
    [phase_sequence_to_line_voltages] gives for the tag's phase sequence and
    neutral flag, in that order. *)
Theorem voltage_entities_follow_wiring (client : SchneiderModbus)
    (presentation_url : string) (ents : list Entity) :
  registered (async_setup_entry GATEWAY_DOMAIN TAG_DOMAIN client presentation_url) = Ok ents →
  List.filter is_voltage ents
  = flat_map
      (λ a, match has_neutral (tag_product_type client a) with
            | Ok neutral =>
                match phase_sequence_to_line_voltages (tag_phase_sequence client a) neutral with
                | Ok lines =>
                    map (PowerTagVoltage a
                           (tag_device_info TAG_DOMAIN client a presentation_url
                              (GATEWAY_DOMAIN, serial_number client))) lines
                | Raise _ => []
                end
            | Raise _ => []
            end)
      (attached client (seqZ 1 99)).
Proof.
  intros Hok. apply setup_registered in Hok as [Hall ->].
  cbn [List.filter is_voltage].
  induction Hall as [|a tags Ha Hall IH]; [reflexivity |].
  cbn [flat_map]. rewrite List.filter_app, IH, filter_voltage_tag_entities.
  rewrite (has_neutral_powertag _ Ha), lines_of_Ok. reflexivity.
Qed.

End MoreSetupProperties.

(** ** Unique ids *)

Lemma append_cancel_l (p a b : string) : p +:+ a = p +:+ b → a = b.
Proof. induction p as [|c p IH]; simpl; intros H; [exact H |]. injection H as H. auto. Qed.

Lemma append_same_length (s1 s2 t1 t2 : string) :
  String.length s1 = String.length s2 →
  s1 +:+ t1 = s2 +:+ t2 → s1 = s2 ∧ t1 = t2.
Proof.
  revert s2. induction s1 as [|c s1 IH]; intros [|c' s2] Hlen H; simpl in *;
    try discriminate Hlen.
  - done.
  - injection H as -> H. injection Hlen as Hlen.
    destruct (IH s2 Hlen H) as [-> ->]. done.
Qed.

Lemma NoDup_fmap_elem {A B} (f : A → B) (l : list A) x y :
  NoDup (f <$> l) → x ∈ l → y ∈ l → f x = f y → x = y.
Proof.
  induction l as [|z l IH]; intros Hnd Hx Hy Hf; [by apply elem_of_nil in Hx |].
  rewrite fmap_cons in Hnd. apply NoDup_cons in Hnd as [Hz Hnd].
  apply elem_of_cons in Hx as [-> | Hx]; apply elem_of_cons in Hy as [-> | Hy].
  - reflexivity.
  - exfalso. apply Hz. rewrite Hf. by apply list_elem_of_fmap_2.
  - exfalso. apply Hz. rewrite <- Hf. by apply list_elem_of_fmap_2.
  - by apply IH.
Qed.

Section UniqueIds.

Variables GATEWAY_DOMAIN TAG_DOMAIN : string.
Variable phase_format : Phase.t → string.
Hypothesis phase_format_inj : Inj (=) (=) phase_format.

(** Within one device, the entity name tells the entity. *)
Lemma entity_name_inj (e1 e2 : Entity) :
  entity_name phase_format e1 = entity_name phase_format e2 →
  entity_modbus_index e1 = entity_modbus_index e2 →
  attr_device_info e1 = attr_device_info e2 →
  e1 = e2.
Proof.
  intros Hname Hidx Hdev.
  destruct e1, e2; simpl in *; try discriminate Hname; simplify_eq; try reflexivity.
  all: first [ f_equal; by apply phase_format_inj
             | by destruct phase, phase0
             | by destruct line, line0 ].
Qed.

Lemma NoDup_tag_entities client presentation_url a :
  NoDup (tag_entities GATEWAY_DOMAIN TAG_DOMAIN client presentation_url a).
Proof.
  apply (NoDup_fmap_1 (entity_name Phase_str)).
  unfold tag_entities.
  generalize (tag_device_info TAG_DOMAIN client a presentation_url
                (GATEWAY_DOMAIN, serial_number client)).
  intros tag_device.
  destruct (tag_phase_sequence client a), (neutral_of (tag_product_type client a));
    compute_done.
Qed.

Lemma unique_id_inj_on_tag client presentation_url a e1 e2 :
  e1 ∈ tag_entities GATEWAY_DOMAIN TAG_DOMAIN client presentation_url a →
  e2 ∈ tag_entities GATEWAY_DOMAIN TAG_DOMAIN client presentation_url a →
  entity_name phase_format e1 = entity_name phase_format e2 →
  e1 = e2.
Proof.
  intros H1 H2 Hname.
  pose proof (tag_entities_owner GATEWAY_DOMAIN TAG_DOMAIN client presentation_url a) as Hown.
  rewrite Forall_forall in Hown.
  destruct (Hown e1 H1) as [Hi1 Hd1]. destruct (Hown e2 H2) as [Hi2 Hd2].
  apply entity_name_inj; congruence.
Qed.

(** X9: the unique ids of the entities of one tag are pairwise different,
    provided formatting tells the three phases apart. *)
Theorem tag_unique_ids_distinct (client : SchneiderModbus) (presentation_url : string)
    (a : Z) :
  NoDup (map (attr_unique_id TAG_DOMAIN phase_format client)
             (tag_entities GATEWAY_DOMAIN TAG_DOMAIN client presentation_url a)).
Proof.
  apply NoDup_fmap_2_strong; [| apply NoDup_tag_entities].
  intros e1 e2 H1 H2 Hid.
  pose proof (tag_entities_owner GATEWAY_DOMAIN TAG_DOMAIN client presentation_url a) as Hown.
  rewrite Forall_forall in Hown.
  destruct (Hown e1 H1) as [Hi1 _]. destruct (Hown e2 H2) as [Hi2 _].
  unfold attr_unique_id, PowerTagEntity_unique_id in Hid. rewrite Hi1, Hi2 in Hid.
  do 2 apply append_cancel_l in Hid.
  by apply (unique_id_inj_on_tag client presentation_url a).
Qed.

(** X10: when the serial numbers of the gateway and of the attached tags
    have one length and are pairwise different, all entities of a completed
    set-up have pairwise different unique ids. *)
Theorem setup_unique_ids_distinct (client : SchneiderModbus) (presentation_url : string)
    (ents : list Entity) :
  registered (async_setup_entry GATEWAY_DOMAIN TAG_DOMAIN client presentation_url) = Ok ents →
  Forall (λ a, String.length (tag_serial_number client a)
               = String.length (serial_number client))
         (attached client (seqZ 1 99)) →
  NoDup (serial_number client
           :: map (tag_serial_number client) (attached client (seqZ 1 99))) →
  NoDup (map (attr_unique_id TAG_DOMAIN phase_format client) ents).
Proof.
  intros Hok Hlen Hserials.
  apply (setup_registered GATEWAY_DOMAIN TAG_DOMAIN) in Hok as [_ ->].
  set (tags := attached client (seqZ 1 99)) in *.
  apply NoDup_cons in Hserials as [Hgw Htags].
  assert (Hin : ∀ e a, e ∈ flat_map (tag_entities GATEWAY_DOMAIN TAG_DOMAIN client presentation_url) tags →
                       entity_modbus_index e = Some a →
                       a ∈ tags ∧ e ∈ tag_entities GATEWAY_DOMAIN TAG_DOMAIN client presentation_url a).
  { intros e a He Ha.
    apply (elem_of_registered GATEWAY_DOMAIN TAG_DOMAIN client presentation_url tags e a);
      [by right | done]. }
  assert (Hsome : ∀ e, e ∈ flat_map (tag_entities GATEWAY_DOMAIN TAG_DOMAIN client presentation_url) tags →
                       ∃ a, entity_modbus_index e = Some a).
  { intros e He. apply list_elem_of_In, in_flat_map in He as (b & _ & He).
    apply list_elem_of_In in He.
    pose proof (tag_entities_owner GATEWAY_DOMAIN TAG_DOMAIN client presentation_url b) as Hown.
    rewrite Forall_forall in Hown. destruct (Hown e He) as [Hidx _]. by exists b. }
  assert (Hnd : NoDup (flat_map (tag_entities GATEWAY_DOMAIN TAG_DOMAIN client presentation_url) tags)).
  { apply NoDup_fmap_1 in Htags. clear Hin Hsome Hgw Hlen.
    induction Htags as [|a tags' Ha Htags' IH]; [constructor |].
    cbn [flat_map]. apply NoDup_app. split; [apply NoDup_tag_entities |]. split; [| exact IH].
    intros e He He'.
    pose proof (tag_entities_owner GATEWAY_DOMAIN TAG_DOMAIN client presentation_url a) as Hown.
    rewrite Forall_forall in Hown. destruct (Hown e He) as [Hidx _].
    destruct (elem_of_registered GATEWAY_DOMAIN TAG_DOMAIN client presentation_url tags' e a)
      as [Hbad _]; [by right | done | done]. }
  apply NoDup_fmap_2_strong.
  2:{ apply NoDup_cons. split; [| exact Hnd].
      intros He. apply Hsome in He as [a Ha]. discriminate Ha. }
  assert (Hsplit : ∀ e1 e2,
            (e1 = GatewayTime (gateway_device_info GATEWAY_DOMAIN client presentation_url) ∨
             e1 ∈ flat_map (tag_entities GATEWAY_DOMAIN TAG_DOMAIN client presentation_url) tags) →
            (e2 = GatewayTime (gateway_device_info GATEWAY_DOMAIN client presentation_url) ∨
             e2 ∈ flat_map (tag_entities GATEWAY_DOMAIN TAG_DOMAIN client presentation_url) tags) →
            attr_unique_id TAG_DOMAIN phase_format client e1
            = attr_unique_id TAG_DOMAIN phase_format client e2 →
            owner_serial client e1 = owner_serial client e2 ∧
            entity_name phase_format e1 = entity_name phase_format e2).
  { intros e1 e2 H1 H2 Hid.
    assert (Hl : ∀ e, e = GatewayTime (gateway_device_info GATEWAY_DOMAIN client presentation_url) ∨
                      e ∈ flat_map (tag_entities GATEWAY_DOMAIN TAG_DOMAIN client presentation_url) tags →
                      String.length (owner_serial client e) = String.length (serial_number client)).
    { intros e [-> | He]; [reflexivity |].
      destruct (Hsome e He) as [a Ha]. destruct (Hin e a He Ha) as [Hatag _].
      unfold owner_serial. rewrite Ha. rewrite Forall_forall in Hlen. by apply Hlen. }
    assert (Hid' : owner_serial client e1 +:+ entity_name phase_format e1
                   = owner_serial client e2 +:+ entity_name phase_format e2).
    { unfold attr_unique_id, GatewayEntity_unique_id, PowerTagEntity_unique_id, owner_serial in *.
      destruct (entity_modbus_index e1), (entity_modbus_index e2);
        by apply append_cancel_l in Hid. }
    apply append_same_length in Hid'; [done |]. by rewrite !Hl. }
  intros e1 e2 H1 H2 Hid.
  apply elem_of_cons in H1, H2.
  destruct (Hsplit e1 e2 H1 H2 Hid) as [Hser Hname].
  destruct H1 as [-> | H1], H2 as [-> | H2]; [reflexivity | | |].
  - exfalso. destruct (Hsome e2 H2) as [a Ha]. destruct (Hin e2 a H2 Ha) as [Hatag _].
    unfold owner_serial in Hser. rewrite Ha in Hser. cbn in Hser.
    apply Hgw. rewrite Hser. by apply list_elem_of_fmap_2.
  - exfalso. destruct (Hsome e1 H1) as [a Ha]. destruct (Hin e1 a H1 Ha) as [Hatag _].
    unfold owner_serial in Hser. rewrite Ha in Hser. cbn in Hser.
    apply Hgw. rewrite <- Hser. by apply list_elem_of_fmap_2.
  - destruct (Hsome e1 H1) as [a1 Ha1]. destruct (Hsome e2 H2) as [a2 Ha2].
    destruct (Hin e1 a1 H1 Ha1) as [Ht1 He1]. destruct (Hin e2 a2 H2 Ha2) as [Ht2 He2].
    unfold owner_serial in Hser. rewrite Ha1, Ha2 in Hser.
    assert (a1 = a2) as -> by (by apply (NoDup_fmap_elem (tag_serial_number client) tags)).
    by apply (unique_id_inj_on_tag client presentation_url a2).
Qed.
End UniqueIds.

(** ** The range of the probe *)

Section ProbeRange.

Variables GATEWAY_DOMAIN TAG_DOMAIN : string.

Lemma discovery_loop_node_table client nodes presentation_url gateway_device range s :
  (∀ i, i ∈ range → nodes i = modbus_address_of_node client i) →
  discovery_loop TAG_DOMAIN (with_node_table client nodes) presentation_url
    gateway_device range s
  = discovery_loop TAG_DOMAIN client presentation_url gateway_device range s.
Proof.
  revert s. induction range as [|i range IH]; intros s Hagree; [reflexivity |].
  cbn [discovery_loop]. unfold bind at 1 3. unfold probe at 1 2.
  cbn [modbus_address_of_node with_node_table].
  rewrite (Hagree i) by left.
  destruct (modbus_address_of_node client i) as [a|]; [| reflexivity].
  change (setup_tag TAG_DOMAIN (with_node_table client nodes) presentation_url
            gateway_device a)
    with (setup_tag TAG_DOMAIN client presentation_url gateway_device a).
  unfold bind.
  destruct (setup_tag _ _ _ _ _ _) as [s1 [[]|e]]; [| reflexivity].
  apply IH. intros i' Hi'. apply Hagree. by right.
Qed.

(** X11: set-up reads the node table at positions 1 to 99 only: two node
    tables that agree there give the same probes and the same registered
    entities, whatever they hold from position 100 on. *)
Theorem setup_reads_positions_1_to_99 (client : SchneiderModbus) (nodes : Z → option Z)
    (presentation_url : string) :
  (∀ i, 1 ≤ i ≤ 99 → nodes i = modbus_address_of_node client i) →
  async_setup_entry GATEWAY_DOMAIN TAG_DOMAIN (with_node_table client nodes) presentation_url
  = async_setup_entry GATEWAY_DOMAIN TAG_DOMAIN client presentation_url.
Proof.
  intros Hagree. unfold async_setup_entry. cbv zeta. unfold bind, append.
  change (gateway_device_info GATEWAY_DOMAIN (with_node_table client nodes) presentation_url)
    with (gateway_device_info GATEWAY_DOMAIN client presentation_url).
  rewrite discovery_loop_node_table; [reflexivity |].
  intros i Hi. apply elem_of_seqZ in Hi. apply Hagree. lia.
Qed.



End ProbeRange.

(** ** Witnesses *)

Lemma Phase_str_inj : Inj (=) (=) Phase_str.
Proof. intros [] [] H; try reflexivity; discriminate H. Qed.

Lemma setup_reads_positions_1_to_99_witness :
  let nodes := λ i, if decide (i < 3) then Some (100 + i)
                    else if decide (i = 100) then Some 7 else None in
  (∀ i, 1 ≤ i ≤ 99 → nodes i = modbus_address_of_node two_tag_gateway i) ∧
  async_setup_entry "gateway" "tag" (with_node_table two_tag_gateway nodes) "http://link"
  = async_setup_entry "gateway" "tag" two_tag_gateway "http://link".
Proof.
  intros nodes.
  assert (H : ∀ i, 1 ≤ i ≤ 99 → nodes i = modbus_address_of_node two_tag_gateway i).
  { intros i Hi. subst nodes. simpl. repeat case_decide; try reflexivity; lia. }
  split; [exact H |].
  exact (setup_reads_positions_1_to_99 "gateway" "tag" two_tag_gateway nodes "http://link" H).
Defined.


Lemma tag_unique_ids_distinct_witness :
  Inj (=) (=) Phase_str ∧
  NoDup (map (attr_unique_id "tag" Phase_str serial_gateway)
             (tag_entities "gateway" "tag" serial_gateway "http://link" 101)).
Proof.
  split; [exact Phase_str_inj |].
  exact (tag_unique_ids_distinct "gateway" "tag" Phase_str Phase_str_inj
           serial_gateway "http://link" 101).
Defined.

Lemma setup_unique_ids_distinct_witness :
  ∃ ents,
    Inj (=) (=) Phase_str ∧
    registered (async_setup_entry "gateway" "tag" serial_gateway "http://link") = Ok ents ∧
    Forall (λ a, String.length (tag_serial_number serial_gateway a)
                 = String.length (serial_number serial_gateway))
           (attached serial_gateway (seqZ 1 99)) ∧
    NoDup (serial_number serial_gateway
             :: map (tag_serial_number serial_gateway) (attached serial_gateway (seqZ 1 99))) ∧
    NoDup (map (attr_unique_id "tag" Phase_str serial_gateway) ents).
Proof.
  exists (GatewayTime (gateway_device_info "gateway" serial_gateway "http://link")
            :: flat_map (tag_entities "gateway" "tag" serial_gateway "http://link")
                 (attached serial_gateway (seqZ 1 99))).
  assert (Hok : registered (async_setup_entry "gateway" "tag" serial_gateway "http://link")
                = Ok (GatewayTime (gateway_device_info "gateway" serial_gateway "http://link")
                        :: flat_map (tag_entities "gateway" "tag" serial_gateway "http://link")
                             (attached serial_gateway (seqZ 1 99))))
    by (rewrite setup_powertags;
        [reflexivity
        | change (attached serial_gateway (seqZ 1 99)) with [101; 102];
          repeat constructor]).
  assert (Hlen : Forall (λ a, String.length (tag_serial_number serial_gateway a)
                              = String.length (serial_number serial_gateway))
                        (attached serial_gateway (seqZ 1 99)))
    by (change (attached serial_gateway (seqZ 1 99)) with [101; 102];
        repeat constructor).
  assert (Hnd : NoDup (serial_number serial_gateway
                         :: map (tag_serial_number serial_gateway)
                              (attached serial_gateway (seqZ 1 99))))
    by (change (attached serial_gateway (seqZ 1 99)) with [101; 102]; compute_done).
  split; [exact Phase_str_inj |]. split; [exact Hok |].
  split; [exact Hlen |]. split; [exact Hnd |].
  exact (setup_unique_ids_distinct "gateway" "tag" Phase_str Phase_str_inj
           serial_gateway "http://link" _ Hok Hlen Hnd).
Defined.

Lemma serial_gateway_registered :
  registered (async_setup_entry "gateway" "tag" serial_gateway "http://link")
  = Ok (GatewayTime (gateway_device_info "gateway" serial_gateway "http://link")
          :: flat_map (tag_entities "gateway" "tag" serial_gateway "http://link") [101; 102]).
Proof.
  rewrite setup_powertags; [reflexivity |].
  change (attached serial_gateway (seqZ 1 99)) with [101; 102]. repeat constructor.
Qed.

Lemma setup_entity_count_witness :
  ∃ ents,
    registered (async_setup_entry "gateway" "tag" serial_gateway "http://link") = Ok ents ∧
    length ents = 34%nat.
Proof.
  eexists. split; [exact serial_gateway_registered |].
  exact (proj1 (setup_entity_count "gateway" "tag" serial_gateway "http://link" _
                  serial_gateway_registered)).
Defined.

Lemma tag_entities_linked_to_gateway_witness :
  let tag_device :=
    tag_device_info "tag" serial_gateway 102 "http://link" ("gateway", "SN-0001") in
  ∃ ents,
    registered (async_setup_entry "gateway" "tag" serial_gateway "http://link") = Ok ents ∧
    PowerTagPowerFactor 102 tag_device ∈ ents ∧
    entity_modbus_index (PowerTagPowerFactor 102 tag_device) = Some 102 ∧
    102 ∈ attached serial_gateway (seqZ 1 99).
Proof.
  intros tag_device. eexists.
  assert (Hin : PowerTagPowerFactor 102 tag_device
                ∈ GatewayTime (gateway_device_info "gateway" serial_gateway "http://link")
                  :: flat_map (tag_entities "gateway" "tag" serial_gateway "http://link")
                       [101; 102]).
  { right. cbn [flat_map]. apply elem_of_app. right. apply elem_of_app. left.
    unfold tag_entities. apply elem_of_app. left. do 5 right. left. }
  split; [exact serial_gateway_registered |]. split; [exact Hin |].
  split; [reflexivity |].
  exact (proj1 (tag_entities_linked_to_gateway "gateway" "tag" serial_gateway "http://link"
                  _ _ 102 serial_gateway_registered Hin eq_refl)).
Defined.

Lemma voltage_entities_follow_wiring_witness :
  ∃ ents,
    registered (async_setup_entry "gateway" "tag" serial_gateway "http://link") = Ok ents ∧
    map entity_modbus_index (List.filter is_voltage ents)
    = [Some 101; Some 101; Some 101; Some 102].
Proof.
  eexists. split; [exact serial_gateway_registered |].
  rewrite (voltage_entities_follow_wiring "gateway" "tag" serial_gateway "http://link" _
             serial_gateway_registered).
  reflexivity.
Defined.

Lemma device_class_fixes_unit_witness :
  attr_device_class (PowerTagActivePower 101 ∅)
  = attr_device_class (PowerTagDemandActivePower 102 ∅) ∧
  is_Some (attr_device_class (PowerTagActivePower 101 ∅)) ∧
  attr_native_unit_of_measurement (PowerTagActivePower 101 ∅)
  = attr_native_unit_of_measurement (PowerTagDemandActivePower 102 ∅).
Proof.
  assert (Hsome : is_Some (attr_device_class (PowerTagActivePower 101 ∅)))
    by (by eexists).
  split; [reflexivity |]. split; [exact Hsome |].
  exact (proj1 (device_class_fixes_unit (PowerTagActivePower 101 ∅)
                  (PowerTagDemandActivePower 102 ∅) eq_refl Hsome)).
Defined.
